(** * simulate.py: the simulation driver of the active-learning simulator

  A shallow embedding of [simulate], [run_model] and the [Config] helper
  class.  The components the driver only calls (the model, selector,
  stopper and evaluator classes chosen by the configuration, the
  [ActiveLearner], the dataset loader, the plotting functions, the file
  system) are parameters of the development; the driver's own control
  flow, arithmetic and list handling are definitions. *)

From Stdlib Require Import ZArith List String Floats QArith Lia.
Import ListNotations.
Open Scope string_scope.
Open Scope list_scope.
Open Scope Z_scope.

(** ** Python exceptions *)

(** The built-in exceptions that expressions of simulate.py itself can raise,
  and [Raised name] for an exception that leaves a collaborator (for
  instance [Raised "TrainingError"]). *)
Inductive exn : Type :=
| ValueError
| OverflowError
| IndexError
| ZeroDivisionError
| Raised (name : string).

Definition result (A : Type) : Type := (exn + A)%type.

(** ** Numbers *)

Module PyNum.

(** [float(n)] for a Python [int]: round to nearest even, and
    [OverflowError] when [n] is too large for a double. *)
Definition float_of_int (n : Z) : result float :=
  match binary_normalize prec emax n 0 false with
  | S754_infinity _ => inl OverflowError
  | x => inr (SF2Prim x)
  end.

(** [x * n] with [x] a float and [n] an int: [n] is converted first. *)
Definition mul_float_int (x : float) (n : Z) : result float :=
  match float_of_int n with
  | inl e => inl e
  | inr y => inr (x * y)%float
  end.

(** The integer a finite double truncates to, on its decoded form
    [(-1)^s * m * 2^e]. *)
Definition trunc_finite (s : bool) (m : positive) (e : Z) : Z :=
  let mag := if 0 <=? e then Z.pos m * 2 ^ e else Z.pos m / 2 ^ (- e) in
  if s then - mag else mag.

(** [int(x)] for a float: truncation toward zero; [ValueError] on NaN and
    [OverflowError] on an infinity. *)
Definition int_of_spec (x : spec_float) : result Z :=
  match x with
  | S754_zero _ => inr 0
  | S754_infinity _ => inl OverflowError
  | S754_nan => inl ValueError
  | S754_finite s m e => inr (trunc_finite s m e)
  end.

Definition int (x : float) : result Z := int_of_spec (Prim2SF x).

(** The mathematical floor of a double (what [math.floor] returns), the
    reading of "floor" in the specification: the largest integer below or
    equal to [(-1)^s * m * 2^e]. *)
Definition floor_finite (s : bool) (m : positive) (e : Z) : Z :=
  let sm := if s then Z.neg m else Z.pos m in
  if 0 <=? e then sm * 2 ^ e else sm / 2 ^ (- e).

Definition floor_of_spec (x : spec_float) : result Z :=
  match x with
  | S754_zero _ => inr 0
  | S754_infinity _ => inl OverflowError
  | S754_nan => inl ValueError
  | S754_finite s m e => inr (floor_finite s m e)
  end.

Definition floor (x : float) : result Z := floor_of_spec (Prim2SF x).

End PyNum.

(** ** The built-ins used on lists of metric values

  Recall and work-save values are Python floats: binary64 numbers, with
  the comparison and the rounded arithmetic of IEEE 754. *)

Module PyList.

(** [l[-1]] *)
Fixpoint last {A : Type} (l : list A) : result A :=
  match l with
  | [] => inl IndexError
  | [x] => inr x
  | _ :: r => last r
  end.

(** [l[i]] for a non-negative index *)
Definition index {A : Type} (l : list A) (i : nat) : result A :=
  match nth_error l i with
  | Some x => inr x
  | None => inl IndexError
  end.

(** [x < y] on metric values: false as soon as one of them is NaN. *)
Definition lt (x y : float) : bool := (x <? y)%float.

(** The loop of [min]: keep the current candidate, replace it by an item
    that compares strictly smaller. *)
Fixpoint min_from (cur : float) (l : list float) : float :=
  match l with
  | [] => cur
  | x :: r => min_from (if lt x cur then x else cur) r
  end.

(** [min(l)]: [ValueError] on an empty list. *)
Definition min (l : list float) : result float :=
  match l with
  | [] => inl ValueError
  | x :: r => inr (min_from x r)
  end.

(** [sum(l)]: starts from 0 and adds the items from left to right, every
    addition rounded to the nearest double.  (The int 0 that [sum] returns
    for an empty list is the float zero here; divided by [len(l) = 0] both
    raise [ZeroDivisionError].) *)
Definition sum (l : list float) : float := fold_left PrimFloat.add l 0%float.

(** [a / n] with [a] a float and [n] an int: [ZeroDivisionError] when [n]
    is 0; otherwise [n] is converted to a float, which raises
    [OverflowError] when it is too large, and the quotient is rounded. *)
Definition div (a : float) (n : Z) : result float :=
  if n =? 0 then inl ZeroDivisionError
  else match PyNum.float_of_int n with
       | inl e => inl e
       | inr b => inr (a / b)%float
       end.

End PyList.

(** ** Data model *)

(** A Python object: an identity and the state of the instance. *)
Record obj (T : Type) : Type := { oid : nat; state : T }.
Arguments oid {T} _.
Arguments state {T} _.
Arguments Build_obj {T} _ _.

Section Simulator.

(** The types the driver handles without looking inside:
    - [Item]: a row of a dataset;
    - [Value]: a resolved configuration value (constructor arguments,
      verbosity flags, the output metric);
    - [Rng]: the state of numpy's global random generator;
    - [Env]: the rest of the outside world (command line, clock, files);
    - [Model], [Selector], [Stopper], [Evaluator], [Learner]: the state of
      an instance of the corresponding class;
    - [Axes]: a plot. *)
Context {Item Value Rng Env Model Selector Stopper Evaluator Learner Axes : Type}.

Definition dataset : Type := list Item.

(** The dict [{'train': ..., 'dev': ...}] handed to [run_model]. *)
Record data_dict : Type := { train : dataset; dev : dataset }.

(** A call into a collaborator that may use numpy's global generator, and a
    call that may use the environment.  Either returns or raises the
    exception named. *)
Definition uses_rng (A : Type) : Type := Rng -> (string + A) * Rng.
Definition uses_env (A : Type) : Type := Env -> (string + A) * Env.

(** One resolved configuration, the dict built by
    [create_simulator_params].  A pair or triple stored under one key is
    flattened: [params['selector'][0]], [[1]] and [[2]] are
    [selector_cls], [selector_args] and [selector_verbose].  [others]
    holds the integer-valued keys simulate.py never reads. *)
Record param : Type := {
  name : string;
  output_path : string;
  data : list Value;
  feature_extraction : Value;
  output_metrics : Value;
  batch_proportion : float;
  confidence : float;
  model_cls : list Value -> uses_rng Model;
  model_args : list Value;
  selector_cls : Z -> list Value -> Value -> uses_rng Selector;
  selector_args : list Value;
  selector_verbose : Value;
  stopper_cls : Z -> float -> list Value -> Value -> uses_rng Stopper;
  stopper_args : list Value;
  stopper_verbose : Value;
  evaluator_cls : dataset -> Value -> uses_rng Evaluator;
  evaluator_verbose : Value;
  active_learner_verbose : Value;
  others : list (string * Z)
}.

(** [params.get(key)] on the keys simulate.py never reads. *)
Fixpoint lookup (key : string) (d : list (string * Z)) : option Z :=
  match d with
  | [] => None
  | (k, v) :: r => if String.eqb k key then Some v else lookup key r
  end.

(** An entry of [Config.metrics]:
    [{'name': n, 'x': (label, value), 'y': (label, value)}]. *)
Record metric : Type := {
  m_name : string;
  m_x : string * float;
  m_y : string * float
}.

(** An entry of the list built by [Config.evaluate_configs]: one metric
    with the values of all configurations. *)
Record comparison : Type := {
  c_name : string;
  c_x : string * list float;
  c_y : string * list float
}.

Record Config : Type := { metrics : list metric; cfg_param : param }.

(** The calls the driver makes, in the order it makes them.  [run_model],
    [update_metrics] and [evaluate_configs] are recorded when they are
    entered, with their arguments; a constructor call and [get_datasets]
    are recorded once they have returned, with the arguments given and
    what came back. *)
Inductive event : Type :=
| EvDatasets (datasets : list dataset)
| EvRunModel (d : data_dict)
| EvModel (o : obj Model) (args : list Value)
| EvSelector (o : obj Selector) (batch_size : Z) (args : list Value) (verbose : Value)
| EvStopper (o : obj Stopper) (N : Z) (conf : float) (args : list Value) (verbose : Value)
| EvEvaluator (o : obj Evaluator) (d : dataset) (verbose : Value)
| EvActiveLearner (o : nat) (m s st e : nat) (batch_size max_iter : Z) (verbose : Value)
| EvTrained (al : obj Learner)
| EvConfig (n : string)
| EvUpdateMetrics (cfg : Config) (active_learners : list (obj Learner))
| EvEvaluateConfigs (cfgs : list Config).

(** The state the program runs in. *)
Record World : Type := {
  rng : Rng;
  env : Env;
  next_oid : nat;
  log : list event
}.

Definition set_rng (g : Rng) (w : World) : World :=
  {| rng := g; env := env w; next_oid := next_oid w; log := log w |}.

Definition set_env (e : Env) (w : World) : World :=
  {| rng := rng w; env := e; next_oid := next_oid w; log := log w |}.

(** ** The monad of the driver: state that survives an exception *)

Definition M (A : Type) : Type := World -> result A * World.

Definition ret {A : Type} (a : A) : M A := fun w => (inr a, w).

Definition bind {A B : Type} (m : M A) (f : A -> M B) : M B :=
  fun w =>
    match m w with
    | (inr a, w') => f a w'
    | (inl e, w') => (inl e, w')
    end.

Definition of_result {A : Type} (r : result A) : M A := fun w => (r, w).

Definition lift_rng {A : Type} (c : uses_rng A) : M A :=
  fun w =>
    match c (rng w) with
    | (inr a, g) => (inr a, set_rng g w)
    | (inl e, g) => (inl (Raised e), set_rng g w)
    end.

Definition lift_env {A : Type} (c : uses_env A) : M A :=
  fun w =>
    match c (env w) with
    | (inr a, e) => (inr a, set_env e w)
    | (inl x, e) => (inl (Raised x), set_env e w)
    end.

Definition tell (ev : event) : M unit :=
  fun w => (inr tt, {| rng := rng w; env := env w; next_oid := next_oid w;
                       log := log w ++ [ev] |}).

(** Allocation of a new object. *)
Definition fresh : M nat :=
  fun w => (inr (next_oid w),
            {| rng := rng w; env := env w; next_oid := S (next_oid w);
               log := log w |}).

(** Instantiating a class: a new object, then its initialiser. *)
Definition new {T : Type} (init : uses_rng T) : M (obj T) :=
  bind fresh (fun o =>
  bind (lift_rng init) (fun st =>
  ret {| oid := o; state := st |})).

Notation "x <- m ;; k" := (bind m (fun x => k))
  (at level 61, m at next level, right associativity).
Notation "m ;; k" := (bind m (fun _ => k))
  (at level 61, right associativity).

(** The same sequencing for the pure computations that may raise. *)
Definition rbind {A B : Type} (r : result A) (f : A -> result B) : result B :=
  match r with
  | inr a => f a
  | inl e => inl e
  end.

Notation "x <~ r ; k" := (rbind r (fun x => k))
  (at level 61, r at next level, right associativity).

(** ** Collaborators

    What simulate.py imports and calls.  The learning components may draw
    from numpy's global generator; loading, plotting and the file system
    act on the environment. *)
Class Collaborators : Type := {
  (* active_learner.py *)
  ActiveLearner :
    obj Model -> obj Selector -> obj Stopper -> Z -> Z -> obj Evaluator ->
    Value -> uses_rng Learner;
  learner_train : Learner -> dataset -> uses_rng Learner;
  evaluator_of : Learner -> Evaluator;
  (* evaluator.py *)
  recall : Evaluator -> list float;
  work_save : Evaluator -> list float;
  visualise_results : list Evaluator -> uses_env Axes;
  output_results : list (obj Learner) -> string -> Value -> uses_env unit;
  scatter_plot : comparison -> uses_env Axes;
  savefig : Axes -> string -> uses_env unit;
  write_html : Axes -> string -> uses_env unit;
  (* numpy: the generator state a seed determines *)
  np_random_seed : Z -> Rng;
  (* command_line_interface.py: parse_CLI, then create_simulator_params *)
  read_params : uses_env (list param);
  (* data_extraction.py *)
  get_datasets : list Value -> string -> Value -> uses_env (list dataset);
  (* datetime, os, json *)
  now : uses_env string;
  path_join : string -> string -> string;
  isdir : string -> uses_env bool;
  makedirs : string -> uses_env unit;
  dump_json : string -> param -> uses_env unit
}.

Context {C : Collaborators}.

(** [len(l)] *)
Definition len {A : Type} (l : list A) : Z := Z.of_nat (List.length l).

(** ** run_model *)

(** [int(params['batch_proportion'] * N) + 1] *)
Definition batch_size (params : param) (N : Z) : result Z :=
  x <~ PyNum.mul_float_int (batch_proportion params) N ;
  z <~ PyNum.int x ;
  inr (z + 1).

Definition run_model (data : data_dict) (params : param) : M (obj Learner) :=
  tell (EvRunModel data) ;;
  let N := len (train data) in
  batch_size <- of_result (batch_size params N) ;;
  model_AL <- new (model_cls params (model_args params)) ;;
  tell (EvModel model_AL (model_args params)) ;;
  selector <- new (selector_cls params batch_size (selector_args params)
                     (selector_verbose params)) ;;
  tell (EvSelector selector batch_size (selector_args params)
          (selector_verbose params)) ;;
  stopper <- new (stopper_cls params N (confidence params) (stopper_args params)
                    (stopper_verbose params)) ;;
  tell (EvStopper stopper N (confidence params) (stopper_args params)
          (stopper_verbose params)) ;;
  evaluator <- new (evaluator_cls params (train data) (evaluator_verbose params)) ;;
  tell (EvEvaluator evaluator (train data) (evaluator_verbose params)) ;;
  active_learner <- new (ActiveLearner model_AL selector stopper batch_size 1000
                           evaluator (active_learner_verbose params)) ;;
  tell (EvActiveLearner (oid active_learner) (oid model_AL) (oid selector)
          (oid stopper) (oid evaluator) batch_size 1000
          (active_learner_verbose params)) ;;
  st <- lift_rng (learner_train (state active_learner) (train data)) ;;
  let active_learner := {| oid := oid active_learner; state := st |} in
  tell (EvTrained active_learner) ;;
  ret active_learner.

(** ** Config *)

(** The first loop of [update_metrics]. *)
Fixpoint final_values (active_learners : list (obj Learner))
    (recalls work_saves : list float) : result (list float * list float) :=
  match active_learners with
  | [] => inr (recalls, work_saves)
  | AL :: rest =>
      r <~ PyList.last (recall (evaluator_of (state AL))) ;
      w <~ PyList.last (work_save (evaluator_of (state AL))) ;
      final_values rest (recalls ++ [r]) (work_saves ++ [w])
  end.

(** The body of [update_metrics]: the value [self] has once the method
    returns. *)
Definition aggregate (self : Config)
    (active_learners : list (obj Learner)) : result Config :=
  rw <~ final_values active_learners [] [] ;
  let recalls := fst rw in
  let work_saves := snd rw in
  min_recall <~ PyList.min recalls ;
  mean_recall <~ PyList.div (PyList.sum recalls) (len recalls) ;
  min_work_save <~ PyList.min work_saves ;
  mean_work_save <~ PyList.div (PyList.sum work_saves) (len work_saves) ;
  inr {| metrics :=
           (metrics self
              ++ [ {| m_name := "min metrics";
                      m_x := ("work save", min_work_save);
                      m_y := ("recall", min_recall) |} ])
              ++ [ {| m_name := "mean metrics";
                      m_x := ("work save", mean_work_save);
                      m_y := ("recall", mean_recall) |} ];
         cfg_param := cfg_param self |}.

Definition update_metrics (self : Config)
    (active_learners : list (obj Learner)) : M Config :=
  tell (EvUpdateMetrics self active_learners) ;;
  of_result (aggregate self active_learners).

(** The inner loop of [evaluate_configs]: the values of metric [i] of every
    configuration. *)
Fixpoint gather (configs : list Config) (i : nat) (xs ys : list float)
    : result (list float * list float) :=
  match configs with
  | [] => inr (xs, ys)
  | config :: rest =>
      m <~ PyList.index (metrics config) i ;
      gather rest i (xs ++ [snd (m_x m)]) (ys ++ [snd (m_y m)])
  end.

(** The outer loop, over [enumerate(configs[0].metrics)]. *)
Fixpoint evaluate_loop (configs : list Config) (todo : list metric) (i : nat)
    (axs : list Axes) : M (list Axes) :=
  match todo with
  | [] => ret axs
  | metric :: rest =>
      xy <- of_result (gather configs i [] []) ;;
      ax <- lift_env (scatter_plot
                        {| c_name := m_name metric;
                           c_x := (fst (m_x metric), fst xy);
                           c_y := (fst (m_y metric), snd xy) |}) ;;
      evaluate_loop configs rest (S i) (axs ++ [ax])
  end.

Definition evaluate_configs (configs : list Config) : M (list Axes) :=
  tell (EvEvaluateConfigs configs) ;;
  first <- of_result (PyList.index configs 0) ;;
  evaluate_loop configs (metrics first) 0%nat [].

(** ** simulate *)

Definition working_directory : string := "./".

(** The local variables of [simulate] that one iteration of the loop over
    the configurations hands to the next. *)
Record locals : Type := {
  configs : list Config;
  cur_output_directory : string;
  cur_output_name : string
}.

(** [if not os.path.isdir(path): os.makedirs(path)] *)
Definition ensure_dir (path : string) : M unit :=
  present <- lift_env (isdir path) ;;
  if negb present then lift_env (makedirs path) else ret tt.

(** [np.random.seed(seed)] *)
Definition seed_rng (seed : Z) : M unit :=
  fun w => (inr tt, set_rng (np_random_seed seed) w).

(** [for i, dataset in enumerate(datasets)], with the list
    [active_learners] built so far. *)
Fixpoint dataset_loop (param : param) (datasets : list dataset)
    (active_learners : list (obj Learner)) : M (list (obj Learner)) :=
  match datasets with
  | [] => ret active_learners
  | dataset :: rest =>
      let data := {| train := dataset; dev := dataset |} in
      active_learner <- run_model data param ;;
      dataset_loop param rest (active_learners ++ [active_learner])
  end.

(** The body of [for k, param in enumerate(params)] comes in two parts.
    The first one, up to the call of [get_datasets], prepares the output of
    the configuration and loads its datasets; it returns the new values of
    [output_directory], [output_path] and [output_name], and the datasets.
    The prints are left out: standard output is not part of the state. *)
Definition load_config (param : param) (s : locals)
    : M (string * string * string * list dataset) :=
  let output_directory := path_join (output_path param) (cur_output_name s) in
  ensure_dir output_directory ;;
  let output_path := path_join output_directory (name param) in
  ensure_dir output_path ;;
  let output_name :=
    (output_path ++ "/" ++ "config_parameters" ++ ".json")%string in
  lift_env (dump_json output_name param) ;;
  datasets <- lift_env (get_datasets (data param) output_directory
                          (feature_extraction param)) ;;
  tell (EvDatasets datasets) ;;
  ret (output_directory, output_path, output_name, datasets).

(** The second part, from [active_learners = []] to the [Config] that is
    appended to [configs]. *)
Definition train_config (param : param) (output_path : string)
    (datasets : list dataset) : M Config :=
  seed_rng 0 ;;
  active_learners <- dataset_loop param datasets [] ;;
  let evaluators := map (fun AL => evaluator_of (state AL)) active_learners in
  ax <- lift_env (visualise_results evaluators) ;;
  lift_env (savefig ax (output_path ++ "/recall-work.png")%string) ;;
  lift_env (output_results active_learners output_path (output_metrics param)) ;;
  tell (EvConfig (name param)) ;;
  let config := {| metrics := []; cfg_param := param |} in
  update_metrics config active_learners.

Definition config_body (param : param) (s : locals) : M locals :=
  loaded <- load_config param s ;;
  let '(output_directory, output_path, output_name, datasets) := loaded in
  if (List.length datasets =? 0)%nat then
    (* continue *)
    ret {| configs := configs s;
           cur_output_directory := output_directory;
           cur_output_name := output_name |}
  else
    config <- train_config param output_path datasets ;;
    ret {| configs := configs s ++ [config];
           cur_output_directory := output_directory;
           cur_output_name := output_name |}.

Fixpoint config_loop (params : list param) (s : locals) : M locals :=
  match params with
  | [] => ret s
  | param :: rest => s' <- config_body param s ;; config_loop rest s'
  end.

(** [for i, ax in enumerate(axs)] *)
Fixpoint write_loop (configs : list Config) (output_directory : string)
    (axs : list Axes) (i : nat) : M unit :=
  match axs with
  | [] => ret tt
  | ax :: rest =>
      first <- of_result (PyList.index configs 0) ;;
      m <- of_result (PyList.index (metrics first) i) ;;
      lift_env (write_html ax
                  (output_directory ++ "/" ++ m_name m ++ ".html")%string) ;;
      write_loop configs output_directory rest (S i)
  end.

(** The patch of the ssl module at the start touches nothing the rest of the
    function reads and is left out. *)
Definition simulate : M unit :=
  output_name <- lift_env now ;;
  let output_directory := (working_directory ++ output_name)%string in
  params <- lift_env read_params ;;
  s <- config_loop params {| configs := [];
                             cur_output_directory := output_directory;
                             cur_output_name := output_name |} ;;
  if (0 <? List.length (configs s))%nat then
    axs <- evaluate_configs (configs s) ;;
    write_loop (configs s) (cur_output_directory s) axs 0%nat
  else ret tt.

(** ** Reading the record of calls *)

(** The events recorded between two states of one execution. *)
Definition emitted (w w' : World) : list event :=
  skipn (List.length (log w)) (log w').

(** The identity of the instance a constructor event created. *)
Definition created (ev : event) : list nat :=
  match ev with
  | EvModel o _ => [oid o]
  | EvSelector o _ _ _ => [oid o]
  | EvStopper o _ _ _ _ => [oid o]
  | EvEvaluator o _ _ => [oid o]
  | EvActiveLearner o _ _ _ _ _ _ _ => [o]
  | _ => []
  end.

(** The component instances an active learner was built from. *)
Definition components (ev : event) : list nat :=
  match ev with
  | EvActiveLearner _ m s st e _ _ _ => [m; s; st; e]
  | _ => []
  end.

(** The batch size a component was given. *)
Definition batch_sizes (ev : event) : list Z :=
  match ev with
  | EvSelector _ b _ _ => [b]
  | EvActiveLearner _ _ _ _ _ b _ _ => [b]
  | _ => []
  end.

(** The recall and work-save histories of a run that has been trained. *)
Definition histories (ev : event) : list (list float * list float) :=
  match ev with
  | EvTrained al =>
      [(recall (evaluator_of (state al)), work_save (evaluator_of (state al)))]
  | _ => []
  end.

(** A collaborator call that returns whatever the generator state. *)
Definition never_raises {A : Type} (c : uses_rng A) : Prop :=
  forall g, exists a g', c g = (inr a, g').

Definition is_stopper_event (ev : event) : bool :=
  match ev with
  | EvStopper _ _ _ _ _ => true
  | _ => false
  end.

(** The constructions that come before the evaluator's. *)
Definition is_early_event (ev : event) : bool :=
  match ev with
  | EvModel _ _ => true
  | EvSelector _ _ _ _ => true
  | EvStopper _ _ _ _ _ => true
  | _ => false
  end.

(** The record of one call of [run_model] that started with [o] as the
    next free identity and computed the batch size [bs]: the events of a
    run that went through ([Some] learner), or of one that stopped at an
    exception. *)
Inductive run_trace (data : data_dict) (params : param) (bs : Z) (o : nat)
    : list event -> option (obj Learner) -> Prop :=
| trace_entered :
    run_trace data params bs o [EvRunModel data] None
| trace_model (m : Model) :
    run_trace data params bs o
      [EvRunModel data;
       EvModel (Build_obj o m) (model_args params)] None
| trace_selector (m : Model) (s : Selector) :
    run_trace data params bs o
      [EvRunModel data;
       EvModel (Build_obj o m) (model_args params);
       EvSelector (Build_obj (1 + o) s) bs (selector_args params)
         (selector_verbose params)] None
| trace_stopper (m : Model) (s : Selector) (st : Stopper) :
    run_trace data params bs o
      [EvRunModel data;
       EvModel (Build_obj o m) (model_args params);
       EvSelector (Build_obj (1 + o) s) bs (selector_args params)
         (selector_verbose params);
       EvStopper (Build_obj (2 + o) st) (len (train data)) (confidence params)
         (stopper_args params) (stopper_verbose params)] None
| trace_evaluator (m : Model) (s : Selector) (st : Stopper) (e : Evaluator) :
    run_trace data params bs o
      [EvRunModel data;
       EvModel (Build_obj o m) (model_args params);
       EvSelector (Build_obj (1 + o) s) bs (selector_args params)
         (selector_verbose params);
       EvStopper (Build_obj (2 + o) st) (len (train data)) (confidence params)
         (stopper_args params) (stopper_verbose params);
       EvEvaluator (Build_obj (3 + o) e) (train data)
         (evaluator_verbose params)] None
| trace_learner (m : Model) (s : Selector) (st : Stopper) (e : Evaluator) :
    run_trace data params bs o
      [EvRunModel data;
       EvModel (Build_obj o m) (model_args params);
       EvSelector (Build_obj (1 + o) s) bs (selector_args params)
         (selector_verbose params);
       EvStopper (Build_obj (2 + o) st) (len (train data)) (confidence params)
         (stopper_args params) (stopper_verbose params);
       EvEvaluator (Build_obj (3 + o) e) (train data)
         (evaluator_verbose params);
       EvActiveLearner (4 + o) o (1 + o) (2 + o) (3 + o) bs 1000
         (active_learner_verbose params)] None
| trace_trained (m : Model) (s : Selector) (st : Stopper) (e : Evaluator)
    (al : Learner) :
    run_trace data params bs o
      [EvRunModel data;
       EvModel (Build_obj o m) (model_args params);
       EvSelector (Build_obj (1 + o) s) bs (selector_args params)
         (selector_verbose params);
       EvStopper (Build_obj (2 + o) st) (len (train data)) (confidence params)
         (stopper_args params) (stopper_verbose params);
       EvEvaluator (Build_obj (3 + o) e) (train data)
         (evaluator_verbose params);
       EvActiveLearner (4 + o) o (1 + o) (2 + o) (3 + o) bs 1000
         (active_learner_verbose params);
       EvTrained (Build_obj (4 + o) al)]
      (Some (Build_obj (4 + o) al)).

(** A [Config] as [simulate] leaves it: created empty for some
    configuration, then updated once from a non-empty list of runs. *)
Definition updated_once (c : Config) : Prop :=
  exists (p : param) (active_learners : list (obj Learner)),
    active_learners <> [] /\
    aggregate {| metrics := []; cfg_param := p |} active_learners = inr c.

(** What holds of every call [simulate] makes. *)
Definition event_ok (ev : event) : Prop :=
  match ev with
  | EvUpdateMetrics cfg active_learners =>
      metrics cfg = [] /\ active_learners <> []
  | EvEvaluateConfigs cfgs => cfgs <> [] /\ Forall updated_once cfgs
  | _ => True
  end.

(** The identities [l] are pairwise distinct and were allocated between
    [lo] and [hi]. *)
Definition fresh_in (lo hi : nat) (l : list nat) : Prop :=
  NoDup l /\ forall x, In x l -> (lo <= x < hi)%nat.

(** One or more steps of an execution: the record only grows, by calls
    that satisfy [event_ok], and the instances created and the components
    used in them are all new. *)
Definition steps (w w' : World) : Prop :=
  exists evs,
    log w' = log w ++ evs /\
    Forall event_ok evs /\
    (next_oid w <= next_oid w')%nat /\
    fresh_in (next_oid w) (next_oid w') (flat_map created evs) /\
    fresh_in (next_oid w) (next_oid w') (flat_map components evs) /\
    incl (flat_map components evs) (flat_map created evs).

(** [m] only takes such steps, returns values that satisfy [R], and never
    raises [ZeroDivisionError]. *)
Definition sat {A : Type} (R : A -> Prop) (m : M A) : Prop :=
  forall w r w',
    m w = (r, w') ->
    steps w w' /\
    match r with
    | inr a => R a
    | inl e => e <> ZeroDivisionError
    end.

(** Two states that differ at most in the state of the random generator. *)
Definition same_but_rng (w1 w2 : World) : Prop :=
  env w1 = env w2 /\ next_oid w1 = next_oid w2 /\ log w1 = log w2.

(** [m] behaves the same from two states that differ in the generator
    only, and leaves two such states. *)
Definition rng_blind {A : Type} (m : M A) : Prop :=
  forall w1 w2,
    same_but_rng w1 w2 ->
    fst (m w1) = fst (m w2) /\ same_but_rng (snd (m w1)) (snd (m w2)).

End Simulator.

(** ** The specification's wording of the aggregates *)

Module Aggregate.


(** The number a finite double stands for, [(-1)^s * m * 2^e]. *)
Definition exact (x : float) : Q :=
  match Prim2SF x with
  | S754_finite s m e => (inject_Z (if s then Z.neg m else Z.pos m) * 2 ^ e)%Q
  | _ => 0%Q
  end.




End Aggregate.

(** ** A small instance of the collaborators

    Items are relevance labels; a model cannot be fitted on a dataset with no
    relevant item; every call into a learning component advances the
    generator by one.  The parameters and datasets come from the instance's
    arguments. *)

Module Toy.

Definition Item : Type := bool.
Definition Value : Type := nat.
Definition Rng : Type := nat.
Definition Env : Type := unit.
Definition Model : Type := unit.
Definition Selector : Type := Z.
Definition Stopper : Type := Z.
(** recall history, work-save history *)
Definition Evaluator : Type := (list float * list float)%type.
Definition Learner : Type := Evaluator.
Definition Axes : Type := unit.

Definition tparam : Type :=
  @param Item Value Rng Model Selector Stopper Evaluator.

Definition draw {A : Type} (a : A) : Rng -> (string + A) * Rng :=
  fun g => (inr a, S g).

Definition quiet {A : Type} (a : A) : Env -> (string + A) * Env :=
  fun e => (inr a, e).

(** The float [a / b] of two small counts. *)
Definition ratio (a b : nat) : float :=
  (SF2Prim (binary_normalize prec emax (Z.of_nat a) 0 false)
   / SF2Prim (binary_normalize prec emax (Z.of_nat b) 0 false))%float.

(** One pass over the whole dataset: final recall 1, final work-save 0,
    after a first snapshot that depends on the generator. *)
Definition fit (st : Learner) (d : list Item) : Rng -> (string + Learner) * Rng :=
  fun g =>
    if existsb (fun b => b) d
    then (inr ([ratio 1 (2 + g); 1]%float,
               [ratio 1 (List.length d); 0]%float), S g)
    else (inl "TrainingError", g).

Definition collaborators (ps : list tparam) (load : list Value -> list (list Item))
    : @Collaborators Item Value Rng Env Model Selector Stopper Evaluator Learner Axes :=
  {| ActiveLearner := fun _ _ _ _ _ e _ => draw (state e);
     learner_train := fit;
     evaluator_of := fun l => l;
     recall := fst;
     work_save := snd;
     visualise_results := fun _ => quiet tt;
     output_results := fun _ _ _ => quiet tt;
     scatter_plot := fun _ => quiet tt;
     savefig := fun _ _ => quiet tt;
     write_html := fun _ _ => quiet tt;
     np_random_seed := Z.to_nat;
     read_params := quiet ps;
     get_datasets := fun args _ _ => quiet (load args);
     now := quiet "2024-01-01 00:00:00";
     path_join := fun a b => (a ++ "/" ++ b)%string;
     isdir := fun _ => quiet true;
     makedirs := fun _ => quiet tt;
     dump_json := fun _ _ => quiet tt |}.

(** A configuration whose four classes accept whatever they are given. *)
Definition config (n : string) (bp : float) (files : list Value)
    (rest : list (string * Z)) : tparam :=
  {| name := n;
     output_path := "out";
     data := files;
     feature_extraction := 0%nat;
     output_metrics := 0%nat;
     batch_proportion := bp;
     confidence := 0.5%float;
     model_cls := fun _ => draw tt;
     model_args := [];
     selector_cls := fun bs _ _ => draw bs;
     selector_args := [];
     selector_verbose := 0%nat;
     stopper_cls := fun N _ _ _ => draw N;
     stopper_args := [];
     stopper_verbose := 0%nat;
     evaluator_cls := fun _ _ => draw ([], []);
     evaluator_verbose := 0%nat;
     active_learner_verbose := 0%nat;
     others := rest |}.

(** The loader: a file name [n] stands for a dataset of [n] items in which
    every third item, from the second on, is relevant. *)
Definition load (args : list Value) : list (list Item) :=
  map (fun n => map (fun i => (i mod 3 =? 1)%nat) (seq 0 n)) args.

(** The collaborators that read the configurations [ps]. *)
Definition toy (ps : list tparam) := collaborators ps load.

Definition world0 : @World Item Value Rng Env Model Selector Stopper Evaluator Learner :=
  {| rng := 7%nat; env := tt; next_oid := 0%nat; log := [] |}.

Definition data_of (n : nat) : @data_dict Item :=
  let d := map (fun i => (i mod 3 =? 1)%nat) (seq 0 n) in
  {| train := d; dev := d |}.

(** The learners of two completed runs. *)
Definition two_runs : list (obj Learner) :=
  [ Build_obj 4%nat ([0.5; 0.75], [0.5; 0.25])%float;
    Build_obj 9%nat ([0.25; 1], [0.625; 0])%float ].



(** One configuration with three datasets; the second one has no relevant
    item. *)
Definition three_datasets : list tparam :=
  [config "a" 0x1.999999999999ap-5%float [5; 1; 4]%nat []].

(** Five items, all of them relevant. *)
Definition all_relevant : @data_dict Item :=
  {| train := [true; true; true; true; true];
     dev := [true; true; true; true; true] |}.

(** A list of one [Config] that holds its two entries. *)
Definition one_config
    : list (@Config Item Value Rng Model Selector Stopper Evaluator) :=
  [ {| metrics := [ {| m_name := "min metrics";
                       m_x := ("work save", 0%float);
                       m_y := ("recall", 1%float) |};
                    {| m_name := "mean metrics";
                       m_x := ("work save", 0.125%float);
                       m_y := ("recall", 0.875%float) |} ];
       cfg_param := config "a" 0.5%float [] [] |} ].

(** Three configurations; the second one has no dataset. *)
Definition three_configs : list tparam :=
  [config "a" 0x1.999999999999ap-5%float [5; 4]%nat [];
   config "b" 0x1.999999999999ap-5%float []%nat [];
   config "c" 0x1.999999999999ap-4%float [3]%nat []].

End Toy.

(** ** More on numbers *)

Module PyMath.

(** [math.isfinite(x)] *)
Definition isfinite (x : float) : bool :=
  match Prim2SF x with
  | S754_zero _ => true
  | S754_finite _ _ _ => true
  | _ => false
  end.


End PyMath.

Section Observations.

Context {Item Value Rng Env Model Selector Stopper Evaluator Learner Axes : Type}.
Context {C : @Collaborators Item Value Rng Env Model Selector Stopper Evaluator Learner Axes}.

Abbreviation event' := (@event Item Value Rng Model Selector Stopper Evaluator Learner).
Abbreviation Config' := (@Config Item Value Rng Model Selector Stopper Evaluator).
Abbreviation param' := (@param Item Value Rng Model Selector Stopper Evaluator).
Abbreviation World' := (@World Item Value Rng Env Model Selector Stopper Evaluator Learner).

(** The events of [run_model]. *)
Definition is_run_event (ev : event') : bool :=
  match ev with
  | EvRunModel _ => true
  | EvModel _ _ => true
  | EvSelector _ _ _ _ => true
  | EvStopper _ _ _ _ _ => true
  | EvEvaluator _ _ _ => true
  | EvActiveLearner _ _ _ _ _ _ _ _ => true
  | EvTrained _ => true
  | _ => false
  end.

(** The data a call of [run_model] was given. *)
Definition runs_of (ev : event') : list (@data_dict Item) :=
  match ev with
  | EvRunModel d => [d]
  | _ => []
  end.

(** The learner a run has trained. *)
Definition trained (ev : event') : list (obj Learner) :=
  match ev with
  | EvTrained al => [al]
  | _ => []
  end.

(** What a call of [get_datasets] returned. *)
Definition loaded (ev : event') : list (list (@dataset Item)) :=
  match ev with
  | EvDatasets ds => [ds]
  | _ => []
  end.

(** The arguments of a call of [update_metrics]. *)
Definition updates (ev : event') : list (Config' * list (obj Learner)) :=
  match ev with
  | EvUpdateMetrics c als => [(c, als)]
  | _ => []
  end.

(** The argument of a call of [evaluate_configs]. *)
Definition evaluated (ev : event') : list (list Config') :=
  match ev with
  | EvEvaluateConfigs cfgs => [cfgs]
  | _ => []
  end.






End Observations.

(** ** More of the small instance *)

Module ToyMore.
Import Toy.

(** A configuration whose batch proportion is not a number. *)
Definition nan_config : tparam := config "n" nan [5]%nat [].

(** A configuration whose batch proportion is infinite. *)
Definition inf_config : tparam := config "i" infinity [5]%nat [].

(** A learner whose evaluator has no recall history. *)
Definition untrained : obj Learner := Build_obj 7%nat ([], [0.5])%float.

(** A [Config] without metric entries. *)
Definition empty_config
    : @Config Item Value Rng Model Selector Stopper Evaluator :=
  {| metrics := []; cfg_param := config "e" 0.5%float [] [] |}.

(** The local variables of [simulate] before the first configuration. *)
Definition start : @locals Item Value Rng Model Selector Stopper Evaluator :=
  {| configs := [];
     cur_output_directory := "./2024-01-01 00:00:00";
     cur_output_name := "2024-01-01 00:00:00" |}.

(** The value a computation returns, or [d] when it raises. *)
Definition value {A : Type} (d : A) (r : result A) : A :=
  match r with
  | inr a => a
  | inl _ => d
  end.

End ToyMore.

(** * Proofs *)

Section Proofs.
Context {Item Value Rng Env Model Selector Stopper Evaluator Learner Axes : Type}.
Context {C : @Collaborators Item Value Rng Env Model Selector Stopper Evaluator Learner Axes}.

Abbreviation World := (@World Item Value Rng Env Model Selector Stopper Evaluator Learner).
Abbreviation M := (@M Item Value Rng Env Model Selector Stopper Evaluator Learner).
Abbreviation param := (@param Item Value Rng Model Selector Stopper Evaluator).
Abbreviation Config := (@Config Item Value Rng Model Selector Stopper Evaluator).
Abbreviation locals := (@locals Item Value Rng Model Selector Stopper Evaluator).
Abbreviation event := (@event Item Value Rng Model Selector Stopper Evaluator Learner).
Abbreviation data_dict := (@data_dict Item).
Abbreviation dataset := (@dataset Item).

Lemma emitted_app (w w' : World) (evs : list event) :
  log w' = log w ++ evs -> emitted w w' = evs.
Proof.
  intros H. unfold emitted. rewrite H.
  rewrite skipn_app, skipn_all, Nat.sub_diag. reflexivity.
Qed.

Lemma bind_inv {A B : Type} (m : M A) (f : A -> M B) (w w' : World) (r : result B) :
  bind m f w = (r, w') ->
  (exists a w1, m w = (inr a, w1) /\ f a w1 = (r, w')) \/
  (exists e, m w = (inl e, w') /\ r = inl e).
Proof.
  unfold bind. destruct (m w) as [[e | a] w1]; intros H.
  - right. exists e. inversion H. auto.
  - left. eauto.
Qed.

Lemma fresh_in_nil (lo hi : nat) : fresh_in lo hi [].
Proof. split; [constructor | intros x []]. Qed.

Ltac solve_fresh :=
  unfold fresh_in; cbn [flat_map created components app oid]; split;
  [ repeat (constructor; [ cbn [In]; intuition lia | ]); constructor
  | intros ? ?; cbn [In] in *; intuition lia ].

Ltac run_leaf :=
  let H := fresh in
  intros H; inversion H; subst; clear H;
  eexists; cbn [rng env next_oid log];
  split; [ rewrite <- ?app_assoc; cbn [app]; reflexivity | ];
  split; [ reflexivity | ];
  split; [ lia | ];
  split; [ solve_fresh | ];
  split; [ solve_fresh | ];
  split; [ cbn [flat_map created components app oid]; intros ? ?;
           cbn [In] in *; intuition auto | ].

Lemma run_model_trace (data : data_dict) (p : param) (w w' : World)
    (r : result (obj Learner)) :
  run_model data p w = (r, w') ->
  exists evs,
    log w' = log w ++ evs /\
    env w' = env w /\
    (next_oid w <= next_oid w')%nat /\
    fresh_in (next_oid w) (next_oid w') (flat_map created evs) /\
    fresh_in (next_oid w) (next_oid w') (flat_map components evs) /\
    incl (flat_map components evs) (flat_map created evs) /\
    match batch_size p (len (train data)) with
    | inl e => evs = [EvRunModel data] /\ r = inl e
    | inr bs =>
        exists res, run_trace data p bs (next_oid w) evs res /\
          match res with
          | Some al => r = inr al
          | None => exists name, r = inl (Raised name)
          end
    end.
Proof.
  unfold run_model.
  cbv [bind tell new fresh lift_rng ret of_result set_rng]. cbn [rng env next_oid log].
  destruct (batch_size p (len (train data))) as [e | bs].
  { run_leaf. split; reflexivity. }
  destruct (model_cls p (model_args p) (rng w)) as [[e | m] g1].
  { run_leaf. exists None. split; [ constructor | eauto ]. }
  cbn [rng env next_oid log oid state].
  destruct (selector_cls p bs (selector_args p) (selector_verbose p) g1) as [[e | s] g2].
  { run_leaf. exists None. split; [ constructor | eauto ]. }
  cbn [rng env next_oid log oid state].
  destruct (stopper_cls p (len (train data)) (confidence p) (stopper_args p)
              (stopper_verbose p) g2) as [[e | st] g3].
  { run_leaf. exists None. split; [ constructor | eauto ]. }
  cbn [rng env next_oid log oid state].
  destruct (evaluator_cls p (train data) (evaluator_verbose p) g3) as [[e | ev] g4].
  { run_leaf. exists None. split; [ constructor | eauto ]. }
  cbn [rng env next_oid log oid state].
  match goal with |- context [ActiveLearner ?a ?b ?c ?d ?e ?f ?g ?h] =>
    destruct (ActiveLearner a b c d e f g h) as [[e' | al] g5] end.
  { run_leaf. exists None. split; [ constructor | eauto ]. }
  cbn [rng env next_oid log oid state].
  destruct (learner_train al (train data) g5) as [[e | al'] g6].
  { run_leaf. exists None. split; [ constructor | eauto ]. }
  run_leaf. exists (Some (Build_obj (4 + next_oid w) al')). split; [ constructor | reflexivity ].
Qed.

(** *** The step relation is a preorder *)

Lemma fresh_in_app (a b c : nat) (l1 l2 : list nat) :
  (a <= b)%nat -> (b <= c)%nat ->
  fresh_in a b l1 -> fresh_in b c l2 -> fresh_in a c (l1 ++ l2).
Proof.
  intros Hab Hbc [N1 R1] [N2 R2]. split.
  - apply NoDup_app; auto.
    intros x H1 H2. apply R1 in H1. apply R2 in H2. lia.
  - intros x Hx. apply in_app_or in Hx. destruct Hx as [Hx | Hx].
    + apply R1 in Hx. lia.
    + apply R2 in Hx. lia.
Qed.

Lemma steps_same (w w' : World) :
  log w' = log w -> next_oid w' = next_oid w -> steps w w'.
Proof.
  intros Hl Ho. exists []. rewrite app_nil_r, Ho. cbn [flat_map].
  split; [ assumption | ]. split; [ constructor | ]. split; [ lia | ].
  split; [ apply fresh_in_nil | ]. split; [ apply fresh_in_nil | ].
  intros x [].
Qed.

Lemma steps_refl (w : World) : steps w w.
Proof. apply steps_same; reflexivity. Qed.

Lemma steps_trans (w1 w2 w3 : World) :
  steps w1 w2 -> steps w2 w3 -> steps w1 w3.
Proof.
  intros (e1 & L1 & F1 & O1 & C1 & U1 & I1) (e2 & L2 & F2 & O2 & C2 & U2 & I2).
  exists (e1 ++ e2). rewrite L2, L1, app_assoc, !flat_map_app.
  split; [ reflexivity | ].
  split; [ apply Forall_app; auto | ].
  split; [ lia | ].
  split; [ exact (fresh_in_app _ _ _ _ _ O1 O2 C1 C2) | ].
  split; [ exact (fresh_in_app _ _ _ _ _ O1 O2 U1 U2) | ].
  apply incl_app; [ apply incl_appl | apply incl_appr ]; assumption.
Qed.

(** *** Rules for [sat] *)

Lemma sat_ret {A : Type} (R : A -> Prop) (a : A) : R a -> sat R (ret a).
Proof.
  intros Ha w r w' H. inversion H; subst. split; [ apply steps_refl | exact Ha ].
Qed.

Lemma sat_bind {A B : Type} (R1 : A -> Prop) (R2 : B -> Prop) (m : M A)
    (f : A -> M B) :
  sat R1 m -> (forall a, R1 a -> sat R2 (f a)) -> sat R2 (bind m f).
Proof.
  intros Hm Hf w r w' H.
  apply bind_inv in H. destruct H as [(a & w1 & H1 & H2) | (e & H1 & ->)].
  - apply Hm in H1. destruct H1 as [S1 Ra].
    apply (Hf a Ra) in H2. destruct H2 as [S2 Rr].
    split; [ eapply steps_trans; eassumption | exact Rr ].
  - apply Hm in H1. exact H1.
Qed.

Lemma sat_weaken {A : Type} (R1 R2 : A -> Prop) (m : M A) :
  (forall a, R1 a -> R2 a) -> sat R1 m -> sat R2 m.
Proof.
  intros HR Hm w r w' H. apply Hm in H. destruct H as [S Hr]. split; auto.
  destruct r; auto.
Qed.

Lemma sat_lift_env {A : Type} (c : uses_env A) : sat (fun _ => True) (lift_env c).
Proof.
  intros w r w'. unfold lift_env.
  destruct (c (env w)) as [[x | a] e]; intros H; inversion H; subst;
    (split; [ apply steps_same; reflexivity | ]); [ discriminate | exact I ].
Qed.

Lemma sat_lift_rng {A : Type} (c : uses_rng A) : sat (fun _ => True) (lift_rng c).
Proof.
  intros w r w'. unfold lift_rng.
  destruct (c (rng w)) as [[x | a] g]; intros H; inversion H; subst;
    (split; [ apply steps_same; reflexivity | ]); [ discriminate | exact I ].
Qed.

Lemma sat_seed_rng (z : Z) : sat (fun _ => True) (seed_rng z).
Proof.
  intros w r w' H. inversion H; subst.
  split; [ apply steps_same; reflexivity | exact I ].
Qed.

Lemma sat_of_result {A : Type} (R : A -> Prop) (r : result A) :
  match r with inr a => R a | inl e => e <> ZeroDivisionError end ->
  sat R (of_result r).
Proof.
  intros Hr w r' w' H. inversion H; subst. split; [ apply steps_refl | exact Hr ].
Qed.

Lemma sat_tell (ev : event) :
  event_ok ev -> created ev = [] -> components ev = [] ->
  sat (fun _ => True) (tell ev).
Proof.
  intros Hok Hc Hu w r w' H. inversion H; subst. split; [ | exact I ].
  exists [ev]. cbn [log next_oid flat_map]. rewrite Hc, Hu. cbn [app].
  split; [ reflexivity | ]. split; [ constructor; [ exact Hok | constructor ] | ].
  split; [ lia | ].
  split; [ apply fresh_in_nil | ]. split; [ apply fresh_in_nil | ].
  intros x [].
Qed.

(** *** run_model *)

Lemma batch_size_exn (p : param) (N : Z) (e : exn) :
  batch_size p N = inl e -> e = ValueError \/ e = OverflowError.
Proof.
  unfold batch_size, rbind, PyNum.mul_float_int, PyNum.float_of_int, PyNum.int.
  destruct (binary_normalize prec emax N 0 false); cbn;
    try (intros H; inversion H; auto; fail);
    match goal with |- context [PyNum.int_of_spec ?x] => destruct x end; cbn;
    intros H; inversion H; auto.
Qed.

Lemma run_trace_event_ok (data : data_dict) (p : param) (bs : Z) (o : nat)
    (evs : list event) (res : option (obj Learner)) :
  run_trace data p bs o evs res -> Forall event_ok evs.
Proof. intros H; inversion H; subst; repeat constructor. Qed.

Lemma sat_run_model (data : data_dict) (p : param) :
  sat (fun _ => True) (run_model data p).
Proof.
  intros w r w' H. apply run_model_trace in H.
  destruct H as (evs & L & _ & O & Cr & U & Inc & H).
  destruct (batch_size p (len (train data))) as [e | bs] eqn:B.
  - destruct H as [-> ->]. split.
    + exists [EvRunModel data]. repeat (split; try assumption). repeat constructor.
    + apply batch_size_exn in B. destruct B; subst; discriminate.
  - destruct H as (res & T & H). split.
    + exists evs. repeat (split; try assumption).
      eapply run_trace_event_ok; eassumption.
    + destruct res as [al | ]; [ subst; exact I | ].
      destruct H as [name ->]. discriminate.
Qed.

Lemma sat_dataset_loop (p : param) (ds : list dataset) (als : list (obj Learner)) :
  sat (fun r => List.length r = (List.length als + List.length ds)%nat)
      (dataset_loop p ds als).
Proof.
  revert als. induction ds as [ | d ds IH]; intros als; cbn [dataset_loop].
  - apply sat_ret. cbn. lia.
  - eapply sat_bind; [ apply sat_run_model | ]. intros al _.
    eapply sat_weaken; [ | apply IH ]. intros r Hr. rewrite Hr, length_app. cbn. lia.
Qed.

(** *** The built-ins *)

Lemma last_exn {A : Type} (l : list A) (e : exn) :
  PyList.last l = inl e -> e = IndexError.
Proof.
  induction l as [ | x [ | y r] IH]; cbn; intros H.
  - inversion H; reflexivity.
  - discriminate.
  - apply IH. exact H.
Qed.

(** *** The order of floats *)










(** *** min and the mean *)






Lemma float_of_int_exn (n : Z) (e : exn) :
  PyNum.float_of_int n = inl e -> e = OverflowError.
Proof.
  unfold PyNum.float_of_int.
  destruct (binary_normalize prec emax n 0 false); congruence.
Qed.

Lemma div_exn (a : float) (n : Z) (e : exn) :
  PyList.div a n = inl e -> e = ZeroDivisionError \/ e = OverflowError.
Proof.
  unfold PyList.div. destruct (n =? 0); [ intros H; inversion H; auto | ].
  destruct (PyNum.float_of_int n) as [e0 | b] eqn:E; [ | discriminate ].
  intros H; inversion H; subst. right. eapply float_of_int_exn; exact E.
Qed.

(** The quotient by the length of a non-empty list. *)
Lemma div_nonempty (l : list float) (a : float) :
  l <> [] ->
  PyList.div a (len l)
  = match PyNum.float_of_int (len l) with
    | inl e => inl e
    | inr n => inr (a / n)%float
    end.
Proof.
  destruct l as [ | x r]; [ congruence | ]. intros _.
  unfold PyList.div, len. cbn [List.length].
  destruct (Z.of_nat (S (List.length r)) =? 0) eqn:E; [ | reflexivity ].
  apply Z.eqb_eq in E. lia.
Qed.


(** *** Config.update_metrics *)

Lemma final_values_length (als : list (obj Learner)) (rs ws rs' ws' : list float) :
  final_values als rs ws = inr (rs', ws') ->
  List.length rs' = (List.length rs + List.length als)%nat /\
  List.length ws' = (List.length ws + List.length als)%nat.
Proof.
  revert rs ws. induction als as [ | AL rest IH]; intros rs ws; cbn [final_values].
  - intros H; inversion H; subst. cbn. lia.
  - unfold rbind.
    destruct (PyList.last (recall (evaluator_of (state AL)))) as [e | r];
      [ discriminate | ].
    destruct (PyList.last (work_save (evaluator_of (state AL)))) as [e | v];
      [ discriminate | ].
    intros H. apply IH in H. rewrite !length_app in H. cbn in *. lia.
Qed.

Lemma final_values_exn (als : list (obj Learner)) (rs ws : list float) (e : exn) :
  final_values als rs ws = inl e -> e = IndexError.
Proof.
  revert rs ws. induction als as [ | AL rest IH]; intros rs ws; cbn [final_values].
  - discriminate.
  - unfold rbind.
    destruct (PyList.last (recall (evaluator_of (state AL)))) as [e1 | r] eqn:E1.
    { intros H; inversion H; subst. eapply last_exn; eassumption. }
    destruct (PyList.last (work_save (evaluator_of (state AL)))) as [e2 | v] eqn:E2.
    { intros H; inversion H; subst. eapply last_exn; eassumption. }
    apply IH.
Qed.

Lemma final_values_finals (als : list (obj Learner)) (rs ws rs0 ws0 : list float) :
  Forall2 (fun AL r => PyList.last (recall (evaluator_of (state AL))) = inr r) als rs ->
  Forall2 (fun AL v => PyList.last (work_save (evaluator_of (state AL))) = inr v) als ws ->
  final_values als rs0 ws0 = inr (rs0 ++ rs, ws0 ++ ws).
Proof.
  intros Hr. revert ws rs0 ws0.
  induction Hr as [ | AL r als rs H1 Hr IH]; intros ws rs0 ws0 Hw;
    inversion Hw as [ | AL' v als' ws' H2 Hw' ]; subst; cbn [final_values].
  - rewrite !app_nil_r. reflexivity.
  - unfold rbind. rewrite H1, H2. rewrite (IH _ _ _ Hw'), <- !app_assoc.
    reflexivity.
Qed.

Lemma min_nonempty (l : list float) :
  l <> [] -> exists m, PyList.min l = inr m.
Proof. destruct l as [ | x r]; [ congruence | ]. intros _. cbn. eauto. Qed.

(** What [update_metrics] leaves in [self], in terms of the lists its first
    loop has built. *)
Lemma aggregate_inv (self : Config) (als : list (obj Learner)) (c : Config) :
  aggregate self als = inr c ->
  exists rs ws min_r mean_r min_w mean_w,
    final_values als [] [] = inr (rs, ws) /\
    PyList.min rs = inr min_r /\
    PyList.div (PyList.sum rs) (len rs) = inr mean_r /\
    PyList.min ws = inr min_w /\
    PyList.div (PyList.sum ws) (len ws) = inr mean_w /\
    c = {| metrics :=
             (metrics self
                ++ [ {| m_name := "min metrics";
                        m_x := ("work save", min_w);
                        m_y := ("recall", min_r) |} ])
                ++ [ {| m_name := "mean metrics";
                        m_x := ("work save", mean_w);
                        m_y := ("recall", mean_r) |} ];
           cfg_param := cfg_param self |}.
Proof.
  unfold aggregate, rbind.
  destruct (final_values als [] []) as [e | [rs ws]]; [ discriminate | ].
  cbn [fst snd].
  destruct (PyList.min rs) as [e | min_r] eqn:E1; [ discriminate | ].
  destruct (PyList.div (PyList.sum rs) (len rs)) as [e | mean_r] eqn:E2;
    [ discriminate | ].
  destruct (PyList.min ws) as [e | min_w] eqn:E3; [ discriminate | ].
  destruct (PyList.div (PyList.sum ws) (len ws)) as [e | mean_w] eqn:E4;
    [ discriminate | ].
  intros H; inversion H; subst.
  exists rs, ws, min_r, mean_r, min_w, mean_w. repeat split; assumption.
Qed.

Lemma aggregate_exn (self : Config) (als : list (obj Learner)) (e : exn) :
  aggregate self als = inl e -> e <> ZeroDivisionError.
Proof.
  unfold aggregate, rbind.
  destruct (final_values als [] []) as [e0 | [rs ws]] eqn:F.
  { intros H; inversion H; subst. apply final_values_exn in F. subst. discriminate. }
  cbn [fst snd].
  assert (L : List.length rs = List.length ws).
  { apply final_values_length in F. cbn in F. lia. }
  destruct rs as [ | r rs].
  { cbn. intros H; inversion H. discriminate. }
  destruct ws as [ | v ws]; [ discriminate | ].
  destruct (min_nonempty (r :: rs)) as [m1 ->]; [ discriminate | ].
  rewrite (div_nonempty (r :: rs)) by discriminate.
  destruct (PyNum.float_of_int (len (r :: rs))) as [e1 | n1] eqn:E1.
  { intros H; inversion H; subst. apply float_of_int_exn in E1. subst. discriminate. }
  destruct (min_nonempty (v :: ws)) as [m2 ->]; [ discriminate | ].
  rewrite (div_nonempty (v :: ws)) by discriminate.
  destruct (PyNum.float_of_int (len (v :: ws))) as [e2 | n2] eqn:E2.
  { intros H; inversion H; subst. apply float_of_int_exn in E2. subst. discriminate. }
  discriminate.
Qed.

Lemma updated_once_metrics (c : Config) :
  updated_once c ->
  map m_name (metrics c) = ["min metrics"; "mean metrics"].
Proof.
  intros (p & als & _ & H). apply aggregate_inv in H.
  destruct H as (rs & ws & a & b & c1 & d & _ & _ & _ & _ & _ & ->).
  reflexivity.
Qed.

(** *** The loops of simulate *)

Ltac sat_step :=
  first
    [ eapply sat_bind; [ apply sat_lift_env | intros ? _ ]
    | eapply sat_bind; [ apply sat_lift_rng | intros ? _ ]
    | eapply sat_bind; [ apply sat_seed_rng | intros ? _ ]
    | eapply sat_bind; [ apply sat_tell; [ exact I | reflexivity | reflexivity ]
                       | intros ? _ ] ].

Lemma sat_ensure_dir (path : string) : sat (fun _ => True) (ensure_dir path).
Proof.
  unfold ensure_dir. sat_step.
  destruct (negb a); [ apply sat_lift_env | apply sat_ret; exact I ].
Qed.

Lemma sat_update_metrics (p : param) (als : list (obj Learner)) :
  als <> [] ->
  sat updated_once (update_metrics {| metrics := []; cfg_param := p |} als).
Proof.
  intros Hne. unfold update_metrics.
  eapply sat_bind;
    [ apply sat_tell; [ split; [ reflexivity | exact Hne ] | reflexivity | reflexivity ]
    | intros ? _ ].
  apply sat_of_result.
  destruct (aggregate {| metrics := []; cfg_param := p |} als) as [e | c] eqn:E.
  - eapply aggregate_exn; eassumption.
  - exists p, als. split; assumption.
Qed.

Lemma sat_load_config (p : param) (s : locals) :
  sat (fun _ => True) (load_config p s).
Proof.
  unfold load_config.
  eapply sat_bind; [ apply sat_ensure_dir | intros ? _ ].
  eapply sat_bind; [ apply sat_ensure_dir | intros ? _ ].
  do 3 sat_step. apply sat_ret. exact I.
Qed.

Lemma sat_train_config (p : param) (path : string) (ds : list dataset) :
  ds <> [] -> sat updated_once (train_config p path ds).
Proof.
  intros Hne. unfold train_config. sat_step.
  eapply sat_bind; [ apply sat_dataset_loop | intros als Hals ].
  do 4 sat_step. apply sat_update_metrics.
  intros ->. destruct ds; [ congruence | cbn in Hals; lia ].
Qed.

Lemma sat_config_body (p : param) (s : locals) :
  Forall updated_once (configs s) ->
  sat (fun s' => Forall updated_once (configs s')) (config_body p s).
Proof.
  intros Hs. unfold config_body.
  eapply sat_bind; [ apply sat_load_config | intros [[[dir path] name] ds] _ ].
  destruct ds as [ | d ds]; cbn [List.length Nat.eqb].
  - apply sat_ret. exact Hs.
  - eapply sat_bind; [ apply sat_train_config; discriminate | intros c Hc ].
    apply sat_ret. cbn [configs]. apply Forall_app. split; [ exact Hs | ].
    constructor; [ exact Hc | constructor ].
Qed.

Lemma sat_config_loop (ps : list param) (s : locals) :
  Forall updated_once (configs s) ->
  sat (fun s' => Forall updated_once (configs s')) (config_loop ps s).
Proof.
  revert s. induction ps as [ | p ps IH]; intros s Hs; cbn [config_loop].
  - apply sat_ret. exact Hs.
  - eapply sat_bind; [ apply sat_config_body; exact Hs | ].
    intros s' Hs'. apply IH. exact Hs'.
Qed.

Lemma index_exn {A : Type} (l : list A) (i : nat) (e : exn) :
  PyList.index l i = inl e -> e = IndexError.
Proof.
  unfold PyList.index. destruct (nth_error l i); intros H; inversion H; reflexivity.
Qed.

Lemma gather_exn (cfgs : list Config) (i : nat) (xs ys : list float) (e : exn) :
  gather cfgs i xs ys = inl e -> e = IndexError.
Proof.
  revert xs ys. induction cfgs as [ | c cfgs IH]; intros xs ys; cbn [gather].
  - discriminate.
  - unfold rbind. destruct (PyList.index (metrics c) i) as [e0 | m] eqn:E.
    + intros H; inversion H; subst. eapply index_exn; eassumption.
    + apply IH.
Qed.

Lemma sat_index {A : Type} (l : list A) (i : nat) :
  sat (fun _ => True) (of_result (PyList.index l i)).
Proof.
  apply sat_of_result. destruct (PyList.index l i) as [e | a] eqn:E; [ | exact I ].
  apply index_exn in E. subst. discriminate.
Qed.

Lemma sat_evaluate_loop (cfgs : list Config) (todo : list metric) (i : nat)
    (axs : list Axes) :
  sat (fun _ => True) (evaluate_loop cfgs todo i axs).
Proof.
  revert i axs. induction todo as [ | m todo IH]; intros i axs; cbn [evaluate_loop].
  - apply sat_ret. exact I.
  - eapply sat_bind with (R1 := fun _ => True).
    + apply sat_of_result.
      destruct (gather cfgs i [] []) as [e | xy] eqn:E; [ | exact I ].
      apply gather_exn in E. subst. discriminate.
    + intros xy _. sat_step. apply IH.
Qed.

Lemma sat_evaluate_configs (cfgs : list Config) :
  cfgs <> [] -> Forall updated_once cfgs ->
  sat (fun _ => True) (evaluate_configs cfgs).
Proof.
  intros Hne Hall. unfold evaluate_configs.
  eapply sat_bind;
    [ apply sat_tell; [ split; assumption | reflexivity | reflexivity ]
    | intros ? _ ].
  eapply sat_bind; [ apply sat_index | intros c0 _ ].
  apply sat_evaluate_loop.
Qed.

Lemma sat_write_loop (cfgs : list Config) (dir : string) (axs : list Axes) (i : nat) :
  sat (fun _ => True) (write_loop cfgs dir axs i).
Proof.
  revert i. induction axs as [ | ax axs IH]; intros i; cbn [write_loop].
  - apply sat_ret. exact I.
  - eapply sat_bind; [ apply sat_index | intros c0 _ ].
    eapply sat_bind; [ apply sat_index | intros m _ ].
    sat_step. apply IH.
Qed.

Lemma sat_simulate : sat (fun _ => True) simulate.
Proof.
  unfold simulate. sat_step. sat_step.
  eapply sat_bind; [ apply sat_config_loop; constructor | intros s Hs ].
  destruct (0 <? List.length (configs s))%nat eqn:E.
  - apply Nat.ltb_lt in E.
    eapply sat_bind; [ apply sat_evaluate_configs | intros axs _ ].
    + intros Hnil. rewrite Hnil in E. cbn in E. lia.
    + exact Hs.
    + apply sat_write_loop.
  - apply sat_ret. exact I.
Qed.

(** *** Independence from the generator state *)

Lemma same_but_rng_refl (w : World) : same_but_rng w w.
Proof. repeat split. Qed.

Lemma same_but_rng_set (g : Rng) (w1 w2 : World) :
  same_but_rng w1 w2 -> set_rng g w1 = set_rng g w2.
Proof.
  destruct w1, w2. unfold same_but_rng, set_rng. cbn.
  intros (-> & -> & ->). reflexivity.
Qed.

Lemma blind_ret {A : Type} (a : A) : rng_blind (ret a : M A).
Proof. intros w1 w2 H. split; [ reflexivity | exact H ]. Qed.

Lemma blind_of_result {A : Type} (r : result A) : rng_blind (of_result r : M A).
Proof. intros w1 w2 H. split; [ reflexivity | exact H ]. Qed.

Lemma blind_bind {A B : Type} (m : M A) (f : A -> M B) :
  rng_blind m -> (forall a, rng_blind (f a)) -> rng_blind (bind m f).
Proof.
  intros Hm Hf w1 w2 H. unfold bind.
  destruct (Hm w1 w2 H) as [E S].
  destruct (m w1) as [[e1 | a1] v1], (m w2) as [[e2 | a2] v2]; cbn in E, S;
    try discriminate.
  - inversion E; subst. split; [ reflexivity | exact S ].
  - inversion E; subst. apply Hf. exact S.
Qed.

Lemma blind_lift_env {A : Type} (c : uses_env A) : rng_blind (lift_env c : M A).
Proof.
  intros w1 w2 (He & Ho & Hl). unfold lift_env. rewrite He.
  destruct (c (env w2)) as [[x | a] e]; cbn; (split; [ reflexivity | ]);
    repeat split; cbn; assumption.
Qed.

Lemma blind_tell (ev : event) : rng_blind (tell ev : M unit).
Proof.
  intros w1 w2 (He & Ho & Hl). unfold tell. cbn.
  split; [ reflexivity | ]. repeat split; cbn; congruence.
Qed.

(** Whatever follows a call of [np.random.seed] starts from one and the
    same state. *)
Lemma seeded_same {A : Type} (z : Z) (k : M A) (w1 w2 : World) :
  same_but_rng w1 w2 ->
  bind (seed_rng z) (fun _ => k) w1 = bind (seed_rng z) (fun _ => k) w2.
Proof.
  intros H. unfold bind, seed_rng. rewrite (same_but_rng_set _ _ _ H). reflexivity.
Qed.

Lemma blind_seeded {A : Type} (z : Z) (k : M A) :
  rng_blind (bind (seed_rng z) (fun _ => k)).
Proof.
  intros w1 w2 H. rewrite (seeded_same z k _ _ H).
  split; [ reflexivity | apply same_but_rng_refl ].
Qed.

Ltac blind_step :=
  first
    [ apply blind_seeded
    | apply blind_bind; [ apply blind_lift_env | intros ? ]
    | apply blind_bind; [ apply blind_tell | intros ? ]
    | apply blind_bind; [ apply blind_of_result | intros ? ]
    | apply blind_ret ].

Lemma blind_ensure_dir (path : string) : rng_blind (ensure_dir path).
Proof.
  unfold ensure_dir. blind_step.
  destruct (negb a); [ apply blind_lift_env | apply blind_ret ].
Qed.

Lemma blind_config_body (p : param) (s : locals) : rng_blind (config_body p s).
Proof.
  unfold config_body. apply blind_bind.
  - unfold load_config.
    apply blind_bind; [ apply blind_ensure_dir | intros ? ].
    apply blind_bind; [ apply blind_ensure_dir | intros ? ].
    do 4 blind_step.
  - intros [[[dir path] name] ds].
    destruct (List.length ds =? 0)%nat; [ apply blind_ret | ].
    apply blind_bind; [ apply blind_seeded | intros c; apply blind_ret ].
Qed.

Lemma blind_config_loop (ps : list param) (s : locals) : rng_blind (config_loop ps s).
Proof.
  revert s. induction ps as [ | p ps IH]; intros s; cbn [config_loop].
  - apply blind_ret.
  - apply blind_bind; [ apply blind_config_body | intros s'; apply IH ].
Qed.

Lemma blind_evaluate_loop (cfgs : list Config) (todo : list metric) (i : nat)
    (axs : list Axes) :
  rng_blind (evaluate_loop cfgs todo i axs).
Proof.
  revert i axs. induction todo as [ | m todo IH]; intros i axs; cbn [evaluate_loop].
  - apply blind_ret.
  - do 2 blind_step. apply IH.
Qed.

Lemma blind_write_loop (cfgs : list Config) (dir : string) (axs : list Axes) (i : nat) :
  rng_blind (write_loop cfgs dir axs i).
Proof.
  revert i. induction axs as [ | ax axs IH]; intros i; cbn [write_loop].
  - apply blind_ret.
  - do 3 blind_step. apply IH.
Qed.

Lemma blind_simulate : rng_blind simulate.
Proof.
  unfold simulate. do 2 blind_step.
  apply blind_bind; [ apply blind_config_loop | intros s ].
  destruct (0 <? List.length (configs s))%nat; [ | apply blind_ret ].
  apply blind_bind; [ | intros axs; apply blind_write_loop ].
  unfold evaluate_configs. do 2 blind_step. apply blind_evaluate_loop.
Qed.

(** *** What one run records *)

Lemma run_model_cases (data : data_dict) (p : param) (w w' : World)
    (r : result (obj Learner)) :
  run_model data p w = (r, w') ->
  (exists e, batch_size p (len (train data)) = inl e /\
             emitted w w' = [EvRunModel data] /\ r = inl e) \/
  (exists bs res,
      batch_size p (len (train data)) = inr bs /\
      run_trace data p bs (next_oid w) (emitted w w') res /\
      match res with
      | Some al => r = inr al
      | None => exists name, r = inl (Raised name)
      end).
Proof.
  intros H. apply run_model_trace in H.
  destruct H as (evs & L & _ & _ & _ & _ & _ & H).
  rewrite (emitted_app _ _ _ L).
  destruct (batch_size p (len (train data))) as [e | bs].
  - left. exists e. destruct H. auto.
  - right. destruct H as (res & T & H). exists bs, res. auto.
Qed.

Lemma floor_of_nonneg (x : float) (z : Z) :
  (0 <=? x)%float = true -> PyNum.int x = inr z -> PyNum.floor x = inr z.
Proof.
  rewrite leb_spec. unfold PyNum.int, PyNum.floor.
  change (Prim2SF 0) with (S754_zero false).
  destruct (Prim2SF x) as [s | s | | s m e]; cbn; try discriminate; auto.
  destruct s; [ discriminate | ]. intros _ H. exact H.
Qed.

(** ** The claims *)

(** C1 (as amended).  In every run, [run_model] computes the batch size
    once, from the size [N] of the whole dataset, as
    [int(batch_proportion * N) + 1], [int] truncating toward zero, and
    hands this one value to the selector and then to the active learner;
    it is [floor(batch_proportion * N) + 1] whenever the product is not
    negative; for [N = 100] and [batch_proportion = 0.05] it is 6. *)
Theorem batch_size_policy :
  (forall (data : data_dict) (p : param) (w w' : World)
          (r : result (obj Learner)) (x : float) (z : Z),
      run_model data p w = (r, w') ->
      PyNum.mul_float_int (batch_proportion p) (len (train data)) = inr x ->
      PyNum.int x = inr z ->
      (exists k,
          flat_map batch_sizes (emitted w w') = repeat (z + 1) k /\
          (k <= 2)%nat /\
          (forall al, r = inr al -> k = 2%nat)) /\
      ((0 <=? x)%float = true -> PyNum.floor x = inr z)) /\
  (forall p : param,
      batch_proportion p = 0x1.999999999999ap-5%float ->
      batch_size p 100 = inr 6).
Proof.
  split.
  - intros data p w w' r x z H Hx Hz. split.
    + assert (B : batch_size p (len (train data)) = inr (z + 1)).
      { unfold batch_size, rbind. rewrite Hx, Hz. reflexivity. }
      apply run_model_cases in H.
      destruct H as [(e & He & _) | (bs & res & Hb & T & Hr)]; [ congruence | ].
      rewrite B in Hb. inversion Hb; subst bs. clear Hb.
      inversion T; subst; cbn [flat_map batch_sizes app];
        [ exists 0%nat | exists 0%nat | exists 1%nat | exists 1%nat
        | exists 1%nat | exists 2%nat | exists 2%nat ];
        (split; [ reflexivity | ]); (split; [ lia | ]);
        intros al0 ->; try (destruct Hr; discriminate); reflexivity.
    + intros Hpos. apply floor_of_nonneg; assumption.
  - intros p Hp. unfold batch_size. rewrite Hp. vm_compute. reflexivity.
Qed.

(** C7 (as amended).  Whatever the configuration holds, [max_iter]
    included, every active learner is constructed with [max_iter = 1000]:
    the ceiling is a constant of [run_model], not a value taken from the
    configuration. *)
Theorem max_iter_is_1000 (data : data_dict) (p : param) (w w' : World)
    (r : result (obj Learner)) :
  run_model data p w = (r, w') ->
  Forall (fun ev =>
            match ev with
            | EvActiveLearner _ _ _ _ _ _ max_iter _ => max_iter = 1000
            | _ => True
            end) (emitted w w') /\
  (forall al, r = inr al ->
     exists o m s st e b,
       In (EvActiveLearner o m s st e b 1000 (active_learner_verbose p))
          (emitted w w')).
Proof.
  intros H. apply run_model_cases in H.
  destruct H as [(e & _ & -> & ->) | (bs & res & _ & T & Hr)].
  - split; [ repeat constructor | discriminate ].
  - inversion T; subst; (split; [ repeat constructor | ]);
      intros al0 ->; try (destruct Hr; discriminate).
    do 6 eexists. cbn. do 5 right. left. reflexivity.
Qed.

(** C8 (as amended).  A run that goes through creates five new instances,
    a model, a selector, a stopper, an evaluator and the active learner,
    and builds the learner from the four components created in this same
    run; over a whole execution of [simulate] all instances created are
    distinct, every component a learner is built from was created in this
    execution, and no component is given to two learners.  (An instance is
    new because calling a class makes a new object: that is how [new]
    models the call.)  State is shared all the same: a run leaves the
    environment as it was, but the next run of the configuration starts in
    the state the run has left, with the random generator where the run
    has taken it; nothing seeds it again between two runs. *)
Theorem fresh_components_per_run :
  (forall (data : data_dict) (p : param) (w w' : World) (al : obj Learner),
      run_model data p w = (inr al, w') ->
      let o := next_oid w in
      flat_map created (emitted w w')
        = [o; (1 + o)%nat; (2 + o)%nat; (3 + o)%nat; (4 + o)%nat] /\
      flat_map components (emitted w w')
        = [o; (1 + o)%nat; (2 + o)%nat; (3 + o)%nat] /\
      oid al = (4 + o)%nat) /\
  (forall (w w' : World) (r : result unit),
      simulate w = (r, w') ->
      NoDup (flat_map created (emitted w w')) /\
      NoDup (flat_map components (emitted w w')) /\
      incl (flat_map components (emitted w w')) (flat_map created (emitted w w')) /\
      (forall x, In x (flat_map created (emitted w w')) -> (next_oid w <= x)%nat)) /\
  (forall (p : param) (d : dataset) (ds : list dataset)
          (acc : list (obj Learner)) (w w1 : World) (al : obj Learner),
      run_model {| train := d; dev := d |} p w = (inr al, w1) ->
      env w1 = env w /\
      dataset_loop p (d :: ds) acc w = dataset_loop p ds (acc ++ [al]) w1).
Proof.
  split; [ | split ].
  - intros data p w w' al H o. apply run_model_cases in H.
    destruct H as [(e & _ & _ & H) | (bs & res & _ & T & Hr)]; [ discriminate | ].
    inversion T; subst; try (destruct Hr; discriminate).
    inversion Hr; subst. cbn. auto.
  - intros w w' r H. apply sat_simulate in H.
    destruct H as [(evs & L & _ & _ & [N1 R1] & [N2 _] & Inc) _].
    rewrite (emitted_app _ _ _ L).
    repeat split; auto. intros x Hx. apply R1 in Hx. lia.
  - intros p d ds acc w w1 al H. split.
    + apply run_model_trace in H. destruct H as (evs & _ & E & _). exact E.
    + cbn [dataset_loop]. unfold bind. rewrite H. reflexivity.
Qed.

Lemma emitted_snoc (w : World) (g : Rng) (e : Env) (n : nat) (evs : list event) :
  emitted w {| rng := g; env := e; next_oid := n; log := log w ++ evs |} = evs.
Proof. apply emitted_app. reflexivity. Qed.

Ltac emitted_simpl :=
  cbn [snd]; rewrite <- ?app_assoc; cbn [app]; rewrite ?emitted_snoc.

(** C6.  The stopper of a run is constructed from the dataset size, the
    confidence target and its configured arguments, and from nothing else;
    the evaluator is the component that is constructed with the dataset
    itself.  First, whatever the outcome of a run, a stopper and an
    evaluator are recorded with these arguments only, and a run that
    returns has recorded both.  Second, the constructions take place: once
    the batch size is computed and the model and the selector are built,
    the stopper class is called with the dataset size, the confidence and
    its configured arguments; what it returns is the stopper of the run,
    and the evaluator class is then called with the dataset; what either
    raises ends the run.  Third, two datasets of the same size lead to the
    same construction of the same stopper, whatever their items and
    labels. *)
Theorem stopper_built_from_size_only :
  (forall (data : data_dict) (p : param) (w w' : World)
          (r : result (obj Learner)),
      run_model data p w = (r, w') ->
      Forall (fun ev =>
                match ev with
                | EvStopper _ N c args v =>
                    N = len (train data) /\ c = confidence p /\
                    args = stopper_args p /\ v = stopper_verbose p
                | EvEvaluator _ d v =>
                    d = train data /\ v = evaluator_verbose p
                | _ => True
                end) (emitted w w') /\
      (forall al, r = inr al ->
         exists st e,
           In (EvStopper st (len (train data)) (confidence p) (stopper_args p)
                 (stopper_verbose p)) (emitted w w') /\
           In (EvEvaluator e (train data) (evaluator_verbose p))
              (emitted w w'))) /\
  (forall (data : data_dict) (p : param) (w : World) (bs : Z)
          (m : Model) (s : Selector) (g1 g2 : Rng),
      batch_size p (len (train data)) = inr bs ->
      model_cls p (model_args p) (rng w) = (inr m, g1) ->
      selector_cls p bs (selector_args p) (selector_verbose p) g1 = (inr s, g2) ->
      let o := next_oid w in
      let built :=
        [EvRunModel data;
         EvModel (Build_obj o m) (model_args p);
         EvSelector (Build_obj (1 + o) s) bs (selector_args p)
           (selector_verbose p)] in
      let run := run_model data p w in
      match stopper_cls p (len (train data)) (confidence p) (stopper_args p)
              (stopper_verbose p) g2 with
      | (inl name, g3) =>
          fst run = inl (Raised name) /\ emitted w (snd run) = built /\
          rng (snd run) = g3
      | (inr st, g3) =>
          let stopper :=
            EvStopper (Build_obj (2 + o) st) (len (train data)) (confidence p)
              (stopper_args p) (stopper_verbose p) in
          match evaluator_cls p (train data) (evaluator_verbose p) g3 with
          | (inl name, g4) =>
              fst run = inl (Raised name) /\
              emitted w (snd run) = built ++ [stopper] /\
              rng (snd run) = g4
          | (inr e, g4) =>
              firstn 5 (emitted w (snd run))
              = built ++ [stopper;
                          EvEvaluator (Build_obj (3 + o) e) (train data)
                            (evaluator_verbose p)]
          end
      end) /\
  (forall (data1 data2 : data_dict) (p : param) (w : World),
      List.length (train data1) = List.length (train data2) ->
      filter is_stopper_event (emitted w (snd (run_model data1 p w)))
      = filter is_stopper_event (emitted w (snd (run_model data2 p w))) /\
      filter is_early_event (emitted w (snd (run_model data1 p w)))
      = filter is_early_event (emitted w (snd (run_model data2 p w)))).
Proof.
  split; [ | split ].
  - intros data p w w' r H. apply run_model_cases in H.
    destruct H as [(e & _ & -> & ->) | (bs & res & _ & T & Hr)].
    + split; [ repeat constructor | discriminate ].
    + inversion T; subst; (split; [ repeat constructor | ]);
        intros al0 ->; try (destruct Hr; discriminate).
      do 2 eexists. cbn. split.
      * do 3 right. left. reflexivity.
      * do 4 right. left. reflexivity.
  - intros data p w bs m s g1 g2 B Hm Hs. cbv zeta.
    unfold run_model.
    cbv [bind tell new fresh lift_rng ret of_result set_rng].
    cbn [rng env next_oid log]. rewrite B, Hm.
    cbn [rng env next_oid log oid state]. rewrite Hs.
    cbn [rng env next_oid log oid state].
    destruct (stopper_cls p (len (train data)) (confidence p) (stopper_args p)
                (stopper_verbose p) g2) as [[name | st] g3];
      cbn [rng env next_oid log oid state fst snd].
    { rewrite <- ?app_assoc; cbn [app]; rewrite emitted_snoc. auto. }
    destruct (evaluator_cls p (train data) (evaluator_verbose p) g3)
      as [[name | e] g4];
      cbn [rng env next_oid log oid state fst snd].
    { rewrite <- ?app_assoc; cbn [app]; rewrite emitted_snoc. auto. }
    repeat match goal with
           | |- context [ActiveLearner ?a ?b ?c ?d ?e ?f ?g ?h] =>
               destruct (ActiveLearner a b c d e f g h) as [[? | ?] ?];
               cbn [rng env next_oid log oid state fst snd]
           | |- context [learner_train ?a ?b ?c] =>
               destruct (learner_train a b c) as [[? | ?] ?];
               cbn [rng env next_oid log oid state fst snd]
           end;
      rewrite <- ?app_assoc; cbn [app]; rewrite emitted_snoc; reflexivity.
  - intros data1 data2 p w HN.
    assert (E : len (train data1) = len (train data2))
      by (unfold len; congruence).
    unfold run_model.
    cbv [bind tell new fresh lift_rng ret of_result set_rng].
    cbn [rng env next_oid log]. rewrite E.
    destruct (batch_size p (len (train data2))) as [e | bs];
      [ emitted_simpl; split; reflexivity | ].
    destruct (model_cls p (model_args p) (rng w)) as [[e | m] g1];
      cbn [rng env next_oid log oid state];
      [ emitted_simpl; split; reflexivity | ].
    destruct (selector_cls p bs (selector_args p) (selector_verbose p) g1)
      as [[e | s] g2];
      cbn [rng env next_oid log oid state];
      [ emitted_simpl; split; reflexivity | ].
    destruct (stopper_cls p (len (train data2)) (confidence p) (stopper_args p)
                (stopper_verbose p) g2) as [[e | st] g3];
      cbn [rng env next_oid log oid state];
      [ emitted_simpl; split; reflexivity | ].
    repeat match goal with
           | |- context [evaluator_cls ?a ?b ?c ?d] =>
               destruct (evaluator_cls a b c d) as [[? | ?] ?];
               cbn [rng env next_oid log oid state]
           | |- context [ActiveLearner ?a ?b ?c ?d ?e ?f ?g ?h] =>
               destruct (ActiveLearner a b c d e f g h) as [[? | ?] ?];
               cbn [rng env next_oid log oid state]
           | |- context [learner_train ?a ?b ?c] =>
               destruct (learner_train a b c) as [[? | ?] ?];
               cbn [rng env next_oid log oid state]
           end;
      emitted_simpl; split; reflexivity.
Qed.

(** C3 (as amended).  [run_model] does not validate the batch size and
    raises no error of its own for it: when the classes of the
    configuration, the active learner and its training accept what they
    are given, the run completes whatever the sign of the batch size, and
    the selector and the learner have been constructed with it. *)
Theorem batch_size_not_validated (data : data_dict) (p : param) (w : World)
    (bs : Z) :
  batch_size p (len (train data)) = inr bs ->
  (forall args, never_raises (model_cls p args)) ->
  (forall b args v, never_raises (selector_cls p b args v)) ->
  (forall N c args v, never_raises (stopper_cls p N c args v)) ->
  (forall d v, never_raises (evaluator_cls p d v)) ->
  (forall m s st b mi e v, never_raises (ActiveLearner m s st b mi e v)) ->
  (forall l, never_raises (learner_train l (train data))) ->
  exists al w',
    run_model data p w = (inr al, w') /\
    flat_map batch_sizes (emitted w w') = [bs; bs].
Proof.
  intros B Hm Hs Hst He Hal Ht.
  unfold run_model.
  cbv [bind tell new fresh lift_rng ret of_result set_rng].
  cbn [rng env next_oid log]. rewrite B.
  destruct (Hm (model_args p) (rng w)) as (m & g1 & ->).
  cbn [rng env next_oid log oid state].
  destruct (Hs bs (selector_args p) (selector_verbose p) g1) as (s & g2 & ->).
  cbn [rng env next_oid log oid state].
  destruct (Hst (len (train data)) (confidence p) (stopper_args p)
              (stopper_verbose p) g2) as (st & g3 & ->).
  cbn [rng env next_oid log oid state].
  destruct (He (train data) (evaluator_verbose p) g3) as (e & g4 & ->).
  cbn [rng env next_oid log oid state].
  match goal with |- context [ActiveLearner ?a ?b ?c ?d ?e ?f ?g ?h] =>
    destruct (Hal a b c d e f g h) as (al & g5 & ->) end.
  cbn [rng env next_oid log oid state].
  destruct (Ht al g5) as (al' & g6 & ->).
  cbn [rng env next_oid log oid state].
  do 2 eexists. split; [ reflexivity | ].
  emitted_simpl. reflexivity.
Qed.

(** *** An exception ends the whole execution *)

Lemma dataset_loop_abort (p : param) (ds1 : list dataset) (d : dataset)
    (ds2 : list dataset) (acc als : list (obj Learner)) (w w1 w2 : World)
    (e : exn) :
  dataset_loop p ds1 acc w = (inr als, w1) ->
  run_model {| train := d; dev := d |} p w1 = (inl e, w2) ->
  dataset_loop p (ds1 ++ d :: ds2) acc w = (inl e, w2).
Proof.
  revert acc w. induction ds1 as [ | d1 ds1 IH]; intros acc w H1 H2.
  - cbn in H1. inversion H1; subst. cbn [app dataset_loop]. unfold bind.
    rewrite H2. reflexivity.
  - cbn [app dataset_loop] in *. apply bind_inv in H1.
    destruct H1 as [(al & w0 & Ha & Hb) | (e0 & _ & He0)]; [ | discriminate ].
    unfold bind at 1. rewrite Ha. eapply IH; eassumption.
Qed.

Lemma train_config_abort (p : param) (path : string) (ds : list dataset)
    (w w' : World) (e : exn) :
  dataset_loop p ds [] (set_rng (np_random_seed 0) w) = (inl e, w') ->
  train_config p path ds w = (inl e, w').
Proof.
  intros H. unfold train_config. unfold bind at 1. unfold seed_rng.
  unfold bind at 1. rewrite H. reflexivity.
Qed.

Lemma config_body_abort (p : param) (s : locals) (w w1 w2 : World)
    (dir path name : string) (ds : list dataset) (e : exn) :
  load_config p s w = (inr (dir, path, name, ds), w1) ->
  ds <> [] ->
  train_config p path ds w1 = (inl e, w2) ->
  config_body p s w = (inl e, w2).
Proof.
  intros H1 Hne H2. unfold config_body. unfold bind at 1. rewrite H1.
  destruct ds as [ | d ds]; [ congruence | ]. cbn [List.length Nat.eqb].
  unfold bind. rewrite H2. reflexivity.
Qed.

Lemma config_loop_abort (ps1 : list param) (p : param) (ps2 : list param)
    (s s1 : locals) (w w1 w2 : World) (e : exn) :
  config_loop ps1 s w = (inr s1, w1) ->
  config_body p s1 w1 = (inl e, w2) ->
  config_loop (ps1 ++ p :: ps2) s w = (inl e, w2).
Proof.
  revert s w. induction ps1 as [ | p1 ps1 IH]; intros s w H1 H2.
  - cbn in H1. inversion H1; subst. cbn [app config_loop]. unfold bind.
    rewrite H2. reflexivity.
  - cbn [app config_loop] in *. apply bind_inv in H1.
    destruct H1 as [(s0 & w0 & Ha & Hb) | (e0 & _ & He0)]; [ | discriminate ].
    unfold bind at 1. rewrite Ha. eapply IH; eassumption.
Qed.

Lemma simulate_abort (w w1 w2 w3 : World) (name : string) (ps : list param)
    (e : exn) :
  lift_env now w = (inr name, w1) ->
  lift_env read_params w1 = (inr ps, w2) ->
  config_loop ps {| configs := [];
                    cur_output_directory := (working_directory ++ name)%string;
                    cur_output_name := name |} w2 = (inl e, w3) ->
  simulate w = (inl e, w3).
Proof.
  intros H1 H2 H3. unfold simulate. unfold bind at 1. rewrite H1.
  unfold bind at 1. rewrite H2. unfold bind at 1. rewrite H3. reflexivity.
Qed.

(** C4 (as amended).  An exception that [run_model] raises for one
    dataset is not caught anywhere: it ends the loop over the datasets in
    the state the failed run left, so that the datasets after it are not
    run, and it leaves [simulate] through the loop over the configurations
    the same way. *)
Theorem failed_run_ends_simulate :
  (forall (p : param) (ds1 : list dataset) (d : dataset) (ds2 : list dataset)
          (acc als : list (obj Learner)) (w w1 w2 : World) (e : exn),
      dataset_loop p ds1 acc w = (inr als, w1) ->
      run_model {| train := d; dev := d |} p w1 = (inl e, w2) ->
      dataset_loop p (ds1 ++ d :: ds2) acc w = (inl e, w2)) /\
  (forall (p : param) (s : locals) (w w1 w2 : World) (dir path name : string)
          (ds : list dataset) (e : exn),
      load_config p s w = (inr (dir, path, name, ds), w1) ->
      ds <> [] ->
      dataset_loop p ds [] (set_rng (np_random_seed 0) w1) = (inl e, w2) ->
      config_body p s w = (inl e, w2)) /\
  (forall (ps1 : list param) (p : param) (ps2 : list param) (s s1 : locals)
          (w w1 w2 : World) (e : exn),
      config_loop ps1 s w = (inr s1, w1) ->
      config_body p s1 w1 = (inl e, w2) ->
      config_loop (ps1 ++ p :: ps2) s w = (inl e, w2)) /\
  (forall (w w1 w2 w3 : World) (name : string) (ps : list param) (e : exn),
      lift_env now w = (inr name, w1) ->
      lift_env read_params w1 = (inr ps, w2) ->
      config_loop ps {| configs := [];
                        cur_output_directory := (working_directory ++ name)%string;
                        cur_output_name := name |} w2 = (inl e, w3) ->
      simulate w = (inl e, w3)).
Proof.
  split; [ exact dataset_loop_abort | ].
  split; [ | split; [ exact config_loop_abort | exact simulate_abort ] ].
  intros p s w w1 w2 dir path name ds e H1 Hne H2.
  eapply config_body_abort; [ eassumption | assumption | ].
  apply train_config_abort. exact H2.
Qed.

(** C5.  With the same datasets, the runs of a configuration do not depend
    on the state the random generator was in before them: the generator
    is seeded with 0 before the first run, so training the configuration
    gives the same learners, traces and final state; and a whole execution
    of [simulate] gives the same outcome, the same record of calls with
    every trained learner in it, hence the same recall and work-save
    histories, and the same environment. *)
Theorem seeded_runs_reproducible :
  (forall (p : param) (path : string) (ds : list dataset) (w : World) (g : Rng),
      train_config p path ds (set_rng g w) = train_config p path ds w) /\
  (forall (w : World) (g1 g2 : Rng),
      fst (simulate (set_rng g1 w)) = fst (simulate (set_rng g2 w)) /\
      log (snd (simulate (set_rng g1 w))) = log (snd (simulate (set_rng g2 w))) /\
      flat_map histories (log (snd (simulate (set_rng g1 w))))
      = flat_map histories (log (snd (simulate (set_rng g2 w)))) /\
      env (snd (simulate (set_rng g1 w))) = env (snd (simulate (set_rng g2 w)))).
Proof.
  split.
  - intros p path ds w g. unfold train_config. apply seeded_same.
    repeat split.
  - intros w g1 g2.
    destruct (blind_simulate (set_rng g1 w) (set_rng g2 w)) as [E (He & _ & Hl)].
    + repeat split.
    + rewrite Hl. auto.
Qed.


Lemma lift_env_log {A : Type} (c : uses_env A) (w w' : World) (r : result A) :
  lift_env c w = (r, w') -> log w' = log w.
Proof.
  unfold lift_env. destruct (c (env w)) as [[x | a] e]; intros H; inversion H;
    reflexivity.
Qed.

Lemma ensure_dir_log (path : string) (w w' : World) (r : result unit) :
  ensure_dir path w = (r, w') -> log w' = log w.
Proof.
  unfold ensure_dir. intros H. apply bind_inv in H.
  destruct H as [(b & w1 & H1 & H2) | (e & H1 & _)].
  - apply lift_env_log in H1. destruct (negb b).
    + apply lift_env_log in H2. congruence.
    + inversion H2; subst. exact H1.
  - apply lift_env_log in H1. exact H1.
Qed.

(** Loading a configuration records what [get_datasets] returned, and
    nothing else. *)
Lemma load_config_log (p : param) (s : locals) (w w1 : World)
    (dir path name : string) (ds : list dataset) :
  load_config p s w = (inr (dir, path, name, ds), w1) ->
  emitted w w1 = [EvDatasets ds].
Proof.
  unfold load_config. intros H.
  apply bind_inv in H. destruct H as [(x1 & v1 & H1 & H) | (e & _ & E)];
    [ | discriminate ].
  apply bind_inv in H. destruct H as [(x2 & v2 & H2 & H) | (e & _ & E)];
    [ | discriminate ].
  apply bind_inv in H. destruct H as [(x3 & v3 & H3 & H) | (e & _ & E)];
    [ | discriminate ].
  apply bind_inv in H. destruct H as [(x4 & v4 & H4 & H) | (e & _ & E)];
    [ | discriminate ].
  apply bind_inv in H. destruct H as [(x5 & v5 & H5 & H) | (e & _ & E)];
    [ | discriminate ].
  apply ensure_dir_log in H1. apply ensure_dir_log in H2.
  apply lift_env_log in H3. apply lift_env_log in H4.
  inversion H5; subst. inversion H; subst.
  apply emitted_app. cbn [log]. congruence.
Qed.

(** C9.  When [get_datasets] returns an empty list for a configuration,
    the iteration ends right after loading, with [configs] as it was: no
    [Config] is created and [update_metrics] is not called.  So in a
    whole execution every call of [update_metrics] receives a non-empty
    list; the lists of values it divides by the length of are as long as
    that list; and [simulate] never ends with [ZeroDivisionError]. *)
Theorem update_metrics_never_empty :
  (forall (p : param) (s : locals) (w w1 : World) (dir path name : string),
      load_config p s w = (inr (dir, path, name, []), w1) ->
      config_body p s w
      = (inr {| configs := configs s;
                cur_output_directory := dir;
                cur_output_name := name |}, w1) /\
      emitted w w1 = [EvDatasets []]) /\
  (forall (w w' : World) (r : result unit),
      simulate w = (r, w') ->
      Forall (fun ev =>
                match ev with
                | EvUpdateMetrics _ active_learners => active_learners <> []
                | _ => True
                end) (emitted w w') /\
      r <> inl ZeroDivisionError) /\
  (forall (als : list (obj Learner)) (rs ws : list float),
      final_values als [] [] = inr (rs, ws) ->
      len rs = len als /\ len ws = len als).
Proof.
  split; [ | split ].
  - intros p s w w1 dir path name H. split.
    + unfold config_body, bind. rewrite H. reflexivity.
    + eapply load_config_log. exact H.
  - intros w w' r H. apply sat_simulate in H.
    destruct H as [(evs & L & F & _) Hr].
    rewrite (emitted_app _ _ _ L). split.
    + eapply Forall_impl; [ | exact F ].
      intros ev Hev. destruct ev; auto. apply Hev.
    + intros ->. apply Hr. reflexivity.
  - intros als rs ws H. apply final_values_length in H. unfold len.
    cbn in H. destruct H as [-> ->]. auto.
Qed.

(** *** Config.evaluate_configs *)

Lemma gather_in_bounds (cfgs : list Config) (n i : nat) (xs ys : list float) :
  Forall (fun c => List.length (metrics c) = n) cfgs -> (i < n)%nat ->
  exists xy, gather cfgs i xs ys = inr xy.
Proof.
  intros H Hi. revert xs ys.
  induction H as [ | c cfgs Hc _ IH]; intros xs ys; cbn [gather].
  - eauto.
  - unfold rbind, PyList.index.
    destruct (nth_error (metrics c) i) as [m | ] eqn:E.
    + apply IH.
    + apply nth_error_None in E. lia.
Qed.

Lemma evaluate_loop_in_bounds (cfgs : list Config) (n : nat) (todo : list metric)
    (i : nat) (axs : list Axes) (w : World) :
  Forall (fun c => List.length (metrics c) = n) cfgs ->
  (i + List.length todo <= n)%nat ->
  fst (evaluate_loop cfgs todo i axs w) <> inl IndexError.
Proof.
  intros H. revert i axs w.
  induction todo as [ | m todo IH]; intros i axs w Hi; cbn [evaluate_loop].
  - discriminate.
  - cbn [List.length] in Hi.
    destruct (gather_in_bounds cfgs n i [] [] H) as [xy E]; [ lia | ].
    unfold bind at 1. unfold of_result. rewrite E.
    unfold bind at 1. unfold lift_env.
    match goal with |- context [scatter_plot ?c ?e] =>
      destruct (scatter_plot c e) as [[x | ax] e'] end.
    + discriminate.
    + apply IH. lia.
Qed.

(** C10.  [simulate] calls [evaluate_configs] with a non-empty list only,
    every [Config] of which was created empty and updated once (every call
    of [update_metrics] is on a [Config] without metrics), so that it
    holds the two entries 'min metrics' and 'mean metrics'; and on a
    non-empty list of such configs no access of [evaluate_configs] is out
    of bounds. *)
Theorem evaluate_configs_in_bounds :
  (forall (w w' : World) (r : result unit),
      simulate w = (r, w') ->
      Forall (fun ev =>
                match ev with
                | EvEvaluateConfigs cfgs =>
                    cfgs <> [] /\
                    Forall (fun c =>
                              updated_once c /\
                              map m_name (metrics c)
                              = ["min metrics"; "mean metrics"]) cfgs
                | EvUpdateMetrics cfg _ => metrics cfg = []
                | _ => True
                end) (emitted w w')) /\
  (forall (cfgs : list Config) (w : World),
      cfgs <> [] ->
      Forall (fun c => map m_name (metrics c) = ["min metrics"; "mean metrics"])
             cfgs ->
      fst (evaluate_configs cfgs w) <> inl IndexError).
Proof.
  split.
  - intros w w' r H. apply sat_simulate in H.
    destruct H as [(evs & L & F & _) _].
    rewrite (emitted_app _ _ _ L).
    eapply Forall_impl; [ | exact F ].
    intros ev Hev. destruct ev; auto; cbn in Hev; [ apply Hev | ].
    destruct Hev as [Hne Hall]. split; [ exact Hne | ].
    eapply Forall_impl; [ | exact Hall ].
    intros c Hc. split; [ exact Hc | apply updated_once_metrics; exact Hc ].
  - intros cfgs w Hne Hnames.
    assert (Hall : Forall (fun c => List.length (metrics c) = 2%nat) cfgs).
    { eapply Forall_impl; [ | exact Hnames ].
      intros c Hc. apply (f_equal (@List.length string)) in Hc.
      rewrite length_map in Hc. exact Hc. }
    unfold evaluate_configs.
    unfold bind at 1. unfold tell.
    destruct cfgs as [ | c cfgs]; [ congruence | ].
    unfold bind at 1. cbn [of_result PyList.index nth_error].
    apply evaluate_loop_in_bounds with (n := 2%nat); [ exact Hall | ].
    inversion Hall; subst. cbn. lia.
Qed.
End Proofs.

(** * The claims on the small instance *)

Module Examples.
Import Toy.

(** C1, counterexample: for [batch_proportion = -0.05] and [N = 10] the
    product is [-0.5], its floor is [-1], so that
    [floor(batch_proportion * N) + 1] is 0; [run_model] computes 1 and
    constructs the selector and the learner with 1. *)
Lemma batch_size_is_not_floor :
  let p := config "c" (-0x1.999999999999ap-5)%float [] [] in
  exists x,
    PyNum.mul_float_int (batch_proportion p) 10 = inr x /\
    PyNum.floor x = inr (-1) /\
    batch_size p 10 = inr 1 /\
    batch_size p 10 <> inr (-1 + 1) /\
    flat_map batch_sizes
      (emitted world0 (snd (run_model (C := toy []) (data_of 10) p world0)))
    = [1; 1].
Proof.
  cbv zeta. eexists. split; [ vm_compute; reflexivity | ].
  split; [ vm_compute; reflexivity | ].
  split; [ vm_compute; reflexivity | ].
  split; [ vm_compute; discriminate | vm_compute; reflexivity ].
Qed.

(** C1 on a run over 100 items with [batch_proportion = 0.05]. *)
Lemma batch_size_policy_witness :
  let p := config "c" 0x1.999999999999ap-5%float [] [] in
  let run := run_model (C := toy []) (data_of 100) p world0 in
  (exists k,
      flat_map batch_sizes (emitted world0 (snd run)) = repeat (5 + 1) k /\
      (k <= 2)%nat /\
      (forall al, fst run = inr al -> k = 2%nat)) /\
  ((0 <=? 5)%float = true -> PyNum.floor 5 = inr 5).
Proof.
  cbv zeta.
  apply (proj1 (batch_size_policy (C := toy [])) (data_of 100)
           (config "c" 0x1.999999999999ap-5%float [] []) world0).
  - apply surjective_pairing.
  - vm_compute. reflexivity.
  - vm_compute. reflexivity.
Defined.



(** C3, counterexample: with [batch_proportion = -1] and five items,
    [floor(batch_proportion * N) + 1] is [-4]; the run raises nothing and
    returns its learner, built with batch size [-4]. *)
Lemma nonpositive_batch_size_runs :
  let p := config "c" (-1)%float [] [] in
  let run := run_model (C := toy []) (data_of 5) p world0 in
  (exists x,
      PyNum.mul_float_int (batch_proportion p) 5 = inr x /\
      PyNum.floor x = inr (-5) /\ -5 + 1 <= 0) /\
  fst run = inr (Build_obj 4%nat ([ratio 1 14; 1], [ratio 1 5; 0])%float) /\
  fst run <> inl (Raised "InvalidBatchSizeError") /\
  flat_map batch_sizes (emitted world0 (snd run)) = [-4; -4].
Proof.
  cbv zeta. split.
  - eexists. split; [ vm_compute; reflexivity | ].
    split; [ vm_compute; reflexivity | lia ].
  - split; [ vm_compute; reflexivity | ].
    split; [ vm_compute; discriminate | vm_compute; reflexivity ].
Qed.

(** C3 on the run with batch size [-4]. *)
Lemma batch_size_not_validated_witness :
  let p := config "c" (-1)%float [] [] in
  batch_size p (len (train (data_of 5))) = inr (-4) /\
  exists al w',
    run_model (C := toy []) (data_of 5) p world0 = (inr al, w') /\
    flat_map batch_sizes (emitted world0 w') = [-4; -4].
Proof.
  cbv zeta. split; [ vm_compute; reflexivity | ].
  apply (batch_size_not_validated (C := toy []) (data_of 5)
           (config "c" (-1)%float [] []) world0).
  - vm_compute. reflexivity.
  - intros args g. do 2 eexists. reflexivity.
  - intros b args v g. do 2 eexists. reflexivity.
  - intros N c args v g. do 2 eexists. reflexivity.
  - intros d v g. do 2 eexists. reflexivity.
  - intros m s st b mi e v g. do 2 eexists. reflexivity.
  - intros l g. do 2 eexists. reflexivity.
Defined.

(** C4, counterexample: training on the second of three datasets raises
    TrainingError; [simulate] ends with this exception and the third
    dataset is never handed to [run_model]. *)
Lemma training_error_stops_siblings :
  let w' := snd (simulate (C := toy three_datasets) world0) in
  fst (simulate (C := toy three_datasets) world0) = inl (Raised "TrainingError") /\
  In (EvDatasets (map (fun n => train (data_of n)) [5; 1; 4]%nat)) (log w') /\
  In (EvRunModel (data_of 5)) (log w') /\
  In (EvRunModel (data_of 1)) (log w') /\
  ~ In (EvRunModel (data_of 4)) (log w').
Proof.
  cbv zeta. split; [ vm_compute; reflexivity | ].
  split; [ vm_compute; auto | ].
  split; [ vm_compute; auto 10 | ].
  split; [ vm_compute; auto 20 | ].
  vm_compute. intuition discriminate.
Qed.

(** C4 on the three datasets: the loop over them and [simulate] both end
    with the TrainingError of the second run. *)
Lemma failed_run_ends_simulate_witness :
  let p := config "a" 0x1.999999999999ap-5%float [5; 1; 4]%nat [] in
  let first := dataset_loop (C := toy three_datasets) p [train (data_of 5)] [] world0 in
  let second := run_model (C := toy three_datasets) (data_of 1) p (snd first) in
  let s := {| configs := [];
              cur_output_directory := "./2024-01-01 00:00:00";
              cur_output_name := "2024-01-01 00:00:00" |} in
  let w' := snd (simulate (C := toy three_datasets) world0) in
  dataset_loop (C := toy three_datasets) p
    ([train (data_of 5)] ++ train (data_of 1) :: [train (data_of 4)]) [] world0
  = (inl (Raised "TrainingError"), snd second) /\
  config_body (C := toy three_datasets) p s world0
  = (inl (Raised "TrainingError"), w') /\
  config_loop (C := toy three_datasets) ([] ++ p :: []) s world0
  = (inl (Raised "TrainingError"), w') /\
  simulate (C := toy three_datasets) world0
  = (inl (Raised "TrainingError"), w').
Proof.
  cbv zeta. split; [ | split; [ | split ] ].
  - apply (proj1 (failed_run_ends_simulate (C := toy three_datasets)))
      with (als := [Build_obj 4%nat ([ratio 1 14; 1], [ratio 1 5; 0])%float])
           (w1 := snd (dataset_loop (C := toy three_datasets)
                         (config "a" 0x1.999999999999ap-5%float [5; 1; 4]%nat [])
                         [train (data_of 5)] [] world0)).
    + vm_compute. reflexivity.
    + vm_compute. reflexivity.
  - apply (proj1 (proj2 (failed_run_ends_simulate (C := toy three_datasets))))
      with (w1 := snd (load_config (C := toy three_datasets)
                         (config "a" 0x1.999999999999ap-5%float [5; 1; 4]%nat [])
                         {| configs := [];
                            cur_output_directory := "./2024-01-01 00:00:00";
                            cur_output_name := "2024-01-01 00:00:00" |} world0))
           (dir := "out/2024-01-01 00:00:00")
           (path := "out/2024-01-01 00:00:00/a")
           (name := "out/2024-01-01 00:00:00/a/config_parameters.json")
           (ds := map (fun n => train (data_of n)) [5; 1; 4]%nat).
    + vm_compute. reflexivity.
    + discriminate.
    + vm_compute. reflexivity.
  - apply (proj1 (proj2 (proj2 (failed_run_ends_simulate (C := toy three_datasets)))))
      with (s1 := {| configs := [];
                     cur_output_directory := "./2024-01-01 00:00:00";
                     cur_output_name := "2024-01-01 00:00:00" |})
           (w1 := world0).
    + reflexivity.
    + vm_compute. reflexivity.
  - apply (proj2 (proj2 (proj2 (failed_run_ends_simulate (C := toy three_datasets)))))
      with (w1 := world0) (w2 := world0) (name := "2024-01-01 00:00:00")
           (ps := three_datasets).
    + reflexivity.
    + reflexivity.
    + vm_compute. reflexivity.
Defined.

(** C6 on a run over five items that goes through: the stopper is the
    one the stopper class returns for the size 5 and the confidence 0.5,
    the evaluator is built with the five items; and on two datasets of
    five items with different labels. *)
Lemma stopper_built_from_size_only_witness :
  let p := config "c" 0x1.999999999999ap-5%float [] [] in
  let run := run_model (C := toy []) (data_of 5) p world0 in
  (exists st e,
     In (EvStopper st 5 0.5%float [] 0%nat) (emitted world0 (snd run)) /\
     In (EvEvaluator e (train (data_of 5)) 0%nat) (emitted world0 (snd run))) /\
  firstn 5 (emitted world0 (snd run))
  = [EvRunModel (data_of 5);
     EvModel (Build_obj 0%nat tt) [];
     EvSelector (Build_obj 1%nat 1) 1 [] 0%nat;
     EvStopper (Build_obj 2%nat 5) 5 0.5%float [] 0%nat;
     EvEvaluator (Build_obj 3%nat ([], [])) (train (data_of 5)) 0%nat] /\
  filter is_stopper_event (emitted world0 (snd run))
  = filter is_stopper_event
      (emitted world0 (snd (run_model (C := toy []) all_relevant p world0))).
Proof.
  cbv zeta. split; [ | split ].
  - apply (proj2 (proj1 (stopper_built_from_size_only (C := toy [])) (data_of 5)
                    (config "c" 0x1.999999999999ap-5%float [] []) world0
                    (snd (run_model (C := toy []) (data_of 5)
                            (config "c" 0x1.999999999999ap-5%float [] []) world0))
                    (inr (Build_obj 4%nat ([ratio 1 14; 1], [ratio 1 5; 0])%float))
                    ltac:(vm_compute; reflexivity))
             (Build_obj 4%nat ([ratio 1 14; 1], [ratio 1 5; 0])%float)).
    reflexivity.
  - exact (proj1 (proj2 (stopper_built_from_size_only (C := toy []))) (data_of 5)
             (config "c" 0x1.999999999999ap-5%float [] []) world0 1 tt 1 8%nat 9%nat
             ltac:(vm_compute; reflexivity) eq_refl eq_refl).
  - apply (proj2 (proj2 (stopper_built_from_size_only (C := toy []))) (data_of 5)
             all_relevant (config "c" 0x1.999999999999ap-5%float [] []) world0).
    reflexivity.
Defined.

(** C7, counterexample: the configuration resolves [max_iter] to 50, and
    the active learner of the run is constructed with [max_iter = 1000]. *)
Lemma configured_max_iter_ignored :
  let p := config "c" 0x1.999999999999ap-5%float [] [("max_iter", 50)] in
  let run := run_model (C := toy []) (data_of 5) p world0 in
  lookup "max_iter" (others p) = Some 50 /\
  In (EvActiveLearner 4 0 1 2 3 1 1000 0%nat) (emitted world0 (snd run)) /\
  Forall (fun ev =>
            match ev with
            | EvActiveLearner _ _ _ _ _ _ max_iter _ => max_iter <> 50
            | _ => True
            end) (emitted world0 (snd run)).
Proof.
  cbv zeta. split; [ reflexivity | ].
  split; [ vm_compute; auto 10 | ].
  vm_compute. repeat constructor. discriminate.
Qed.

(** C7 on the configuration that resolves [max_iter] to 50. *)
Lemma max_iter_is_1000_witness :
  let p := config "c" 0x1.999999999999ap-5%float [] [("max_iter", 50)] in
  let run := run_model (C := toy []) (data_of 5) p world0 in
  Forall (fun ev =>
            match ev with
            | EvActiveLearner _ _ _ _ _ _ max_iter _ => max_iter = 1000
            | _ => True
            end) (emitted world0 (snd run)) /\
  (forall al, fst run = inr al ->
     exists o m s st e b,
       In (EvActiveLearner o m s st e b 1000 (active_learner_verbose p))
          (emitted world0 (snd run))).
Proof.
  cbv zeta.
  apply (max_iter_is_1000 (C := toy []) (data_of 5)
           (config "c" 0x1.999999999999ap-5%float [] [("max_iter", 50)]) world0).
  apply surjective_pairing.
Defined.

(** C8, counterexample: one configuration, the same dataset of five items
    twice.  The two runs return learners with different recall histories:
    the second run starts with the generator where the first run has left
    it, at 6, not where the seed has put it, at 0.  Run right after the
    seed, the second run would have given the history of the first. *)
Lemma runs_share_the_generator :
  let p := config "a" 0x1.999999999999ap-5%float [5; 5]%nat [] in
  let d := data_of 5 in
  let w := set_rng (np_random_seed (Collaborators := toy [p]) 0) world0 in
  exists al1 al2 w1 w2,
    run_model (C := toy [p]) d p w = (inr al1, w1) /\
    run_model (C := toy [p]) d p w1 = (inr al2, w2) /\
    dataset_loop (C := toy [p]) p [train d; train d] [] w = (inr [al1; al2], w2) /\
    rng w = 0%nat /\ rng w1 = 6%nat /\
    recall (Collaborators := toy [p]) (state al1) = [ratio 1 7; 1]%float /\
    recall (Collaborators := toy [p]) (state al2) = [ratio 1 13; 1]%float /\
    (ratio 1 7 =? ratio 1 13)%float = false.
Proof.
  cbv zeta. do 4 eexists.
  split; [ vm_compute; reflexivity | ].
  split; [ vm_compute; reflexivity | ].
  split; [ vm_compute; reflexivity | ].
  repeat split; vm_compute; reflexivity.
Qed.

(** C8 on one run, on an execution over three configurations, and on the
    two runs of the same dataset. *)
Lemma fresh_components_per_run_witness :
  let p := config "c" 0x1.999999999999ap-5%float [] [] in
  let run := run_model (C := toy []) (data_of 5) p world0 in
  let all := simulate (C := toy three_configs) world0 in
  let d := train (data_of 5) in
  (flat_map created (emitted world0 (snd run)) = [0; 1; 2; 3; 4]%nat /\
   flat_map components (emitted world0 (snd run)) = [0; 1; 2; 3]%nat /\
   oid (Build_obj 4%nat ([ratio 1 14; 1], [ratio 1 5; 0])%float) = 4%nat) /\
  (NoDup (flat_map created (emitted world0 (snd all))) /\
   NoDup (flat_map components (emitted world0 (snd all))) /\
   incl (flat_map components (emitted world0 (snd all)))
        (flat_map created (emitted world0 (snd all))) /\
   (forall x, In x (flat_map created (emitted world0 (snd all))) ->
              (next_oid world0 <= x)%nat)) /\
  (env (snd run) = env world0 /\
   dataset_loop (C := toy []) p [d; d] [] world0
   = dataset_loop (C := toy []) p [d]
       ([] ++ [Build_obj 4%nat ([ratio 1 14; 1], [ratio 1 5; 0])%float])
       (snd run)).
Proof.
  cbv zeta. split; [ | split ].
  - apply (proj1 (fresh_components_per_run (C := toy [])) (data_of 5)
             (config "c" 0x1.999999999999ap-5%float [] []) world0
             (snd (run_model (C := toy []) (data_of 5)
                     (config "c" 0x1.999999999999ap-5%float [] []) world0))
             (Build_obj 4%nat ([ratio 1 14; 1], [ratio 1 5; 0])%float)).
    vm_compute. reflexivity.
  - apply (proj1 (proj2 (fresh_components_per_run (C := toy three_configs))) world0
             (snd (simulate (C := toy three_configs) world0))
             (fst (simulate (C := toy three_configs) world0))).
    apply surjective_pairing.
  - apply (proj2 (proj2 (fresh_components_per_run (C := toy [])))
             (config "c" 0x1.999999999999ap-5%float [] [])
             (train (data_of 5)) [train (data_of 5)] [] world0).
    vm_compute. reflexivity.
Defined.

(** C9 on the configuration without datasets and on the whole execution. *)
Lemma update_metrics_never_empty_witness :
  let b := config "b" 0x1.999999999999ap-5%float []%nat [] in
  let s := {| configs := []; cur_output_directory := "./x"; cur_output_name := "x" |} in
  let all := simulate (C := toy three_configs) world0 in
  (config_body (C := toy three_configs) b s world0
   = (inr {| configs := [];
             cur_output_directory := "out/x";
             cur_output_name := "out/x/b/config_parameters.json" |},
      snd (load_config (C := toy three_configs) b s world0)) /\
   emitted world0 (snd (load_config (C := toy three_configs) b s world0))
   = [EvDatasets []]) /\
  (Forall (fun ev =>
             match ev with
             | EvUpdateMetrics _ active_learners => active_learners <> []
             | _ => True
             end) (emitted world0 (snd all)) /\
   fst all <> inl ZeroDivisionError) /\
  (len [0.75; 1]%float = len two_runs /\ len [0.25; 0]%float = len two_runs).
Proof.
  cbv zeta. split; [ | split ].
  - apply (proj1 (update_metrics_never_empty (C := toy three_configs))
             (config "b" 0x1.999999999999ap-5%float []%nat [])
             {| configs := []; cur_output_directory := "./x"; cur_output_name := "x" |}
             world0 _ "out/x" "out/x/b" "out/x/b/config_parameters.json").
    vm_compute. reflexivity.
  - apply (proj1 (proj2 (update_metrics_never_empty (C := toy three_configs)))
             world0 (snd (simulate (C := toy three_configs) world0))
             (fst (simulate (C := toy three_configs) world0))).
    apply surjective_pairing.
  - apply (proj2 (proj2 (update_metrics_never_empty (C := toy three_configs)))
             two_runs).
    vm_compute. reflexivity.
Defined.

(** C10 on the whole execution and on a list of one [Config]. *)
Lemma evaluate_configs_in_bounds_witness :
  let all := simulate (C := toy three_configs) world0 in
  Forall (fun ev =>
            match ev with
            | EvEvaluateConfigs cfgs =>
                cfgs <> [] /\
                Forall (fun c =>
                          updated_once (C := toy three_configs) c /\
                          map m_name (metrics c)
                          = ["min metrics"; "mean metrics"]) cfgs
            | EvUpdateMetrics cfg _ => metrics cfg = []
            | _ => True
            end) (emitted world0 (snd all)) /\
  fst (evaluate_configs (C := toy three_configs) one_config world0)
  <> inl IndexError.
Proof.
  cbv zeta. split.
  - apply (proj1 (evaluate_configs_in_bounds (C := toy three_configs)) world0
             (snd (simulate (C := toy three_configs) world0))
             (fst (simulate (C := toy three_configs) world0))).
    apply surjective_pairing.
  - apply (proj2 (evaluate_configs_in_bounds (C := toy three_configs))
             one_config world0).
    + discriminate.
    + repeat constructor.
Defined.
End Examples.

(** * More properties of the code *)

Section MoreProofs.
Context {Item Value Rng Env Model Selector Stopper Evaluator Learner Axes : Type}.
Context {C : @Collaborators Item Value Rng Env Model Selector Stopper Evaluator Learner Axes}.

Abbreviation World := (@World Item Value Rng Env Model Selector Stopper Evaluator Learner).
Abbreviation M := (@M Item Value Rng Env Model Selector Stopper Evaluator Learner).
Abbreviation param := (@param Item Value Rng Model Selector Stopper Evaluator).
Abbreviation Config := (@Config Item Value Rng Model Selector Stopper Evaluator).
Abbreviation locals := (@locals Item Value Rng Model Selector Stopper Evaluator).
Abbreviation event := (@event Item Value Rng Model Selector Stopper Evaluator Learner).
Abbreviation data_dict := (@data_dict Item).
Abbreviation dataset := (@dataset Item).

(** *** The batch size *)

Lemma trunc_finite_nonneg (m : positive) (e : Z) :
  0 <= PyNum.trunc_finite false m e.
Proof.
  unfold PyNum.trunc_finite. destruct (0 <=? e) eqn:E.
  - apply Z.leb_le in E. apply Z.mul_nonneg_nonneg; [ lia | ].
    apply Z.pow_nonneg. lia.
  - apply Z.div_pos; [ lia | ]. apply Z.pow_pos_nonneg; lia.
Qed.

Lemma floor_le_trunc (s : bool) (m : positive) (e : Z) :
  PyNum.floor_finite s m e <= PyNum.trunc_finite s m e <= PyNum.floor_finite s m e + 1.
Proof.
  unfold PyNum.floor_finite, PyNum.trunc_finite.
  destruct s; destruct (0 <=? e) eqn:E; try lia.
  apply Z.leb_gt in E.
  assert (P : 0 < 2 ^ (- e)) by (apply Z.pow_pos_nonneg; lia).
  set (d := 2 ^ (- e)) in *.
  pose proof (Z.div_mod (Z.pos m) d ltac:(lia)) as D1.
  pose proof (Z.mod_pos_bound (Z.pos m) d P) as B1.
  pose proof (Z.div_mod (Z.neg m) d ltac:(lia)) as D2.
  pose proof (Z.mod_pos_bound (Z.neg m) d P) as B2.
  assert (N : Z.neg m = - Z.pos m) by reflexivity.
  nia.
Qed.

(** X1.  Whenever the float product [batch_proportion * N] is not negative,
    the batch size [run_model] computes is at least 1. *)
Theorem batch_size_at_least_one (p : param) (N : Z) (x : float) (bs : Z) :
  PyNum.mul_float_int (batch_proportion p) N = inr x ->
  (0 <=? x)%float = true ->
  batch_size p N = inr bs ->
  1 <= bs.
Proof.
  intros Hx Hpos. unfold batch_size, rbind. rewrite Hx.
  revert Hpos. rewrite leb_spec. unfold PyNum.int.
  change (Prim2SF 0) with (S754_zero false).
  destruct (Prim2SF x) as [s | s | | s m e]; cbn -[PyNum.trunc_finite];
    try discriminate.
  - intros _ H. assert (E : 1 = bs) by congruence. lia.
  - destruct s; [ discriminate | ]. intros _ H.
    assert (E : PyNum.trunc_finite false m e + 1 = bs) by congruence.
    pose proof (trunc_finite_nonneg m e). lia.
Qed.

(** X2.  The batch size is never below [floor(batch_proportion * N) + 1] and
    never more than one above it. *)
Theorem batch_size_floor_bounds (p : param) (N : Z) (x : float) (bs : Z) :
  PyNum.mul_float_int (batch_proportion p) N = inr x ->
  batch_size p N = inr bs ->
  exists f, PyNum.floor x = inr f /\ f + 1 <= bs <= f + 2.
Proof.
  intros Hx. unfold batch_size, rbind. rewrite Hx.
  unfold PyNum.int, PyNum.floor.
  destruct (Prim2SF x) as [s | s | | s m e];
    cbn -[PyNum.trunc_finite PyNum.floor_finite]; try discriminate.
  - intros H. assert (E : 1 = bs) by congruence.
    exists 0. split; [ reflexivity | lia ].
  - intros H. assert (E : PyNum.trunc_finite s m e + 1 = bs) by congruence.
    exists (PyNum.floor_finite s m e).
    split; [ reflexivity | ]. pose proof (floor_le_trunc s m e). lia.
Qed.

(** X3.  For an empty dataset the batch size is 1 when [batch_proportion] is
    finite; when it is NaN or infinite, computing the batch size raises
    ValueError. *)
Theorem batch_size_empty_dataset (p : param) :
  (PyMath.isfinite (batch_proportion p) = true -> batch_size p 0 = inr 1) /\
  (PyMath.isfinite (batch_proportion p) = false ->
   batch_size p 0 = inl ValueError).
Proof.
  unfold batch_size, rbind, PyNum.mul_float_int, PyNum.float_of_int, PyMath.isfinite.
  change (binary_normalize prec emax 0 0 false) with (S754_zero false).
  cbv iota. change (SF2Prim (S754_zero false)) with 0%float.
  unfold PyNum.int. rewrite mul_spec.
  change (Prim2SF 0) with (S754_zero false).
  destruct (Prim2SF (batch_proportion p)) as [s | s | | s m e]; cbn;
    split; intros H; try discriminate; reflexivity.
Qed.

(** X4.  An exception that [run_model] raises by itself is a ValueError or
    an OverflowError of the batch size computation, raised before any
    component is constructed; every other exception of a run comes out of a
    collaborator. *)
Theorem run_model_own_errors (data : data_dict) (p : param) (w w' : World)
    (e : exn) :
  run_model data p w = (inl e, w') ->
  ((e = ValueError \/ e = OverflowError) /\
   batch_size p (len (train data)) = inl e /\
   emitted w w' = [EvRunModel data]) \/
  (exists name, e = Raised name).
Proof.
  intros H. apply run_model_cases in H.
  destruct H as [(e0 & B & Hev & He) | (bs & res & _ & _ & Hr)].
  - inversion He; subst e0. left. split; [ | split; assumption ].
    eapply batch_size_exn. exact B.
  - right. destruct res as [al | ]; [ discriminate | ].
    destruct Hr as [name Hn]. inversion Hn. eauto.
Qed.


(** *** Config.update_metrics *)

Lemma last_nonempty {A : Type} (l : list A) :
  l <> [] -> exists x, PyList.last l = inr x.
Proof.
  induction l as [ | x [ | y r] IH]; intros H.
  - congruence.
  - cbn. eauto.
  - apply IH. discriminate.
Qed.

Lemma final_values_some_empty (als : list (obj Learner)) (rs ws : list float) :
  Exists (fun AL => recall (evaluator_of (state AL)) = [] \/
                    work_save (evaluator_of (state AL)) = []) als ->
  final_values als rs ws = inl IndexError.
Proof.
  revert rs ws. induction als as [ | AL rest IH]; intros rs ws H.
  - inversion H.
  - cbn [final_values]. unfold rbind.
    destruct (PyList.last (recall (evaluator_of (state AL)))) as [e | r] eqn:E1.
    { apply last_exn in E1. subst. reflexivity. }
    destruct (PyList.last (work_save (evaluator_of (state AL)))) as [e | v] eqn:E2.
    { apply last_exn in E2. subst. reflexivity. }
    apply IH. inversion H as [x l [H0 | H0] | x l H0]; subst.
    + rewrite H0 in E1. discriminate.
    + rewrite H0 in E2. discriminate.
    + exact H0.
Qed.

Lemma final_values_all_nonempty (als : list (obj Learner)) :
  Forall (fun AL => recall (evaluator_of (state AL)) <> [] /\
                    work_save (evaluator_of (state AL)) <> []) als ->
  exists rs ws,
    Forall2 (fun AL r => PyList.last (recall (evaluator_of (state AL))) = inr r)
            als rs /\
    Forall2 (fun AL v => PyList.last (work_save (evaluator_of (state AL))) = inr v)
            als ws.
Proof.
  induction 1 as [ | AL rest [Hr Hw] _ (rs & ws & IH1 & IH2)].
  - exists [], []. split; constructor.
  - destruct (last_nonempty _ Hr) as [r Er].
    destruct (last_nonempty _ Hw) as [v Ev].
    exists (r :: rs), (v :: ws). split; constructor; assumption.
Qed.

Lemma last_fails_on_empty {A : Type} (l : list A) (e : exn) :
  PyList.last l = inl e -> l = [].
Proof.
  intros H. destruct l as [ | x r]; [ reflexivity | ].
  destruct (last_nonempty (x :: r)) as [y E]; [ discriminate | congruence ].
Qed.

Lemma final_values_fails (als : list (obj Learner)) (rs ws : list float) (e : exn) :
  final_values als rs ws = inl e ->
  Exists (fun AL => recall (evaluator_of (state AL)) = [] \/
                    work_save (evaluator_of (state AL)) = []) als.
Proof.
  revert rs ws. induction als as [ | AL rest IH]; intros rs ws; cbn [final_values].
  - discriminate.
  - unfold rbind.
    destruct (PyList.last (recall (evaluator_of (state AL)))) as [e1 | r] eqn:E1.
    { intros _. left. left. eapply last_fails_on_empty; exact E1. }
    destruct (PyList.last (work_save (evaluator_of (state AL)))) as [e2 | v] eqn:E2.
    { intros _. left. right. eapply last_fails_on_empty; exact E2. }
    intros H. right. eapply IH; exact H.
Qed.

Lemma aggregate_index_error (cfg : Config) (als : list (obj Learner)) :
  aggregate cfg als = inl IndexError ->
  Exists (fun AL => recall (evaluator_of (state AL)) = [] \/
                    work_save (evaluator_of (state AL)) = []) als.
Proof.
  unfold aggregate, rbind.
  destruct (final_values als [] []) as [e0 | [rs ws]] eqn:F.
  { intros _. eapply final_values_fails; exact F. }
  cbn [fst snd].
  destruct (PyList.min rs) as [e1 | m1] eqn:E1.
  { intros H. destruct rs; cbn in E1; congruence. }
  destruct (PyList.div (PyList.sum rs) (len rs)) as [e2 | q1] eqn:E2.
  { intros H. apply div_exn in E2. destruct E2; congruence. }
  destruct (PyList.min ws) as [e3 | m2] eqn:E3.
  { intros H. destruct ws; cbn in E3; congruence. }
  destruct (PyList.div (PyList.sum ws) (len ws)) as [e4 | q2] eqn:E4.
  { intros H. apply div_exn in E4. destruct E4; congruence. }
  discriminate.
Qed.

(** X5.  [update_metrics] fails in three ways only: on an empty list of
    runs [min] raises ValueError; it raises IndexError exactly when some
    run has an empty recall or work-save history (the index [-1]); and on
    a non-empty list of runs that all have both histories it succeeds,
    unless the number of runs is too large to convert to a float, which
    raises OverflowError in the division. *)
Theorem aggregate_failures (self : Config) (als : list (obj Learner)) :
  (als = [] -> aggregate self als = inl ValueError) /\
  (Exists (fun AL => recall (evaluator_of (state AL)) = [] \/
                     work_save (evaluator_of (state AL)) = []) als ->
   aggregate self als = inl IndexError) /\
  (aggregate self als = inl IndexError ->
   Exists (fun AL => recall (evaluator_of (state AL)) = [] \/
                     work_save (evaluator_of (state AL)) = []) als) /\
  (als <> [] ->
   Forall (fun AL => recall (evaluator_of (state AL)) <> [] /\
                     work_save (evaluator_of (state AL)) <> []) als ->
   match PyNum.float_of_int (len als) with
   | inr _ => exists c, aggregate self als = inr c
   | inl e => e = OverflowError /\ aggregate self als = inl e
   end).
Proof.
  split; [ | split; [ | split ] ].
  - intros ->. reflexivity.
  - intros H. unfold aggregate, rbind.
    rewrite (final_values_some_empty als [] [] H). reflexivity.
  - apply aggregate_index_error.
  - intros Hne Hall.
    destruct (final_values_all_nonempty als Hall) as (rs & ws & F1 & F2).
    assert (Lr : rs <> []).
    { intros ->. inversion F1; subst. congruence. }
    assert (Lw : ws <> []).
    { intros ->. inversion F2; subst. congruence. }
    assert (Nr : len rs = len als).
    { unfold len. rewrite <- (Forall2_length F1). reflexivity. }
    assert (Nw : len ws = len als).
    { unfold len. rewrite <- (Forall2_length F2). reflexivity. }
    unfold aggregate, rbind.
    rewrite (final_values_finals als rs ws [] [] F1 F2). cbn [app fst snd].
    destruct (min_nonempty rs Lr) as [m1 ->].
    destruct (min_nonempty ws Lw) as [m2 ->].
    rewrite (div_nonempty rs _ Lr), (div_nonempty ws _ Lw), Nr, Nw.
    destruct (PyNum.float_of_int (len als)) as [e | n] eqn:E.
    + split; [ eapply float_of_int_exn; exact E | reflexivity ].
    + eauto.
Qed.

Lemma Forall2_forall_l {A B : Type} (R : A -> B -> Prop) (l : list A) (l' : list B) :
  Forall2 R l l' -> forall a, In a l -> exists b, R a b.
Proof.
  induction 1 as [ | x y l l' H _ IH]; intros a Ha.
  - destruct Ha.
  - destruct Ha as [<- | Ha]; [ eauto | apply IH; exact Ha ].
Qed.

(** *** Config.evaluate_configs *)

Lemma gather_inv (cfgs : list Config) (i : nat) (xs0 ys0 xs ys : list float) :
  gather cfgs i xs0 ys0 = inr (xs, ys) ->
  exists ms,
    Forall2 (fun c m => nth_error (metrics c) i = Some m) cfgs ms /\
    xs = xs0 ++ map (fun m => snd (m_x m)) ms /\
    ys = ys0 ++ map (fun m => snd (m_y m)) ms.
Proof.
  revert xs0 ys0. induction cfgs as [ | c cfgs IH]; intros xs0 ys0; cbn [gather].
  - intros H. inversion H; subst. exists []. rewrite !app_nil_r.
    repeat split. constructor.
  - unfold rbind, PyList.index.
    destruct (nth_error (metrics c) i) as [m | ] eqn:E; [ | discriminate ].
    intros H. apply IH in H. destruct H as (ms & F & -> & ->).
    exists (m :: ms). rewrite <- !app_assoc.
    repeat split. constructor; assumption.
Qed.

(** X6.  The inner loop of [evaluate_configs] collects, for metric [i], the
    x value and the y value of entry [i] of every configuration, one per
    configuration and in the order of the configurations. *)
Theorem gather_collects_in_order (cfgs : list Config) (i : nat) (xs ys : list float) :
  gather cfgs i [] [] = inr (xs, ys) ->
  exists ms,
    Forall2 (fun c m => nth_error (metrics c) i = Some m) cfgs ms /\
    xs = map (fun m => snd (m_x m)) ms /\
    ys = map (fun m => snd (m_y m)) ms /\
    List.length xs = List.length cfgs /\ List.length ys = List.length cfgs.
Proof.
  intros H. apply gather_inv in H. destruct H as (ms & F & -> & ->).
  exists ms. cbn [app]. rewrite !length_map.
  pose proof (Forall2_length F) as L. repeat split; auto.
Qed.

Lemma evaluate_loop_shape (cfgs : list Config) (todo : list metric) (i : nat)
    (axs0 axs : list Axes) (w w' : World) :
  evaluate_loop cfgs todo i axs0 w = (inr axs, w') ->
  List.length axs = (List.length axs0 + List.length todo)%nat /\
  Forall (fun c => forall j, (i <= j < i + List.length todo)%nat ->
                             (j < List.length (metrics c))%nat) cfgs.
Proof.
  revert i axs0 w. induction todo as [ | m todo IH]; intros i axs0 w;
    cbn [evaluate_loop].
  - intros H. inversion H; subst. split; [ cbn; lia | ].
    apply Forall_forall. intros c _ j Hj. cbn in Hj. lia.
  - intros H. apply bind_inv in H.
    destruct H as [(xy & w1 & H1 & H) | (e & _ & E)]; [ | discriminate ].
    apply bind_inv in H.
    destruct H as [(ax & w2 & H2 & H) | (e & _ & E)]; [ | discriminate ].
    apply IH in H. destruct H as [L F].
    split; [ rewrite L, length_app; cbn; lia | ].
    unfold of_result in H1. inversion H1 as [[G W]]. destruct xy as [xs ys].
    apply gather_inv in G. destruct G as (ms & G & _ & _).
    rewrite Forall_forall in *. intros c Hc j Hj. cbn [List.length] in Hj.
    destruct (Nat.eq_dec j i) as [-> | Hne].
    + destruct (Forall2_forall_l _ _ _ G c Hc) as (mc & E).
      apply nth_error_Some. rewrite E. discriminate.
    + apply (F c Hc). lia.
Qed.


Lemma evaluate_configs_returns (cfgs : list Config) (w w' : World)
    (axs : list Axes) :
  evaluate_configs cfgs w = (inr axs, w') ->
  exists first rest,
    cfgs = first :: rest /\
    List.length axs = List.length (metrics first) /\
    Forall (fun c => (List.length (metrics first) <= List.length (metrics c))%nat)
           cfgs.
Proof.
  unfold evaluate_configs. intros H.
  apply bind_inv in H.
  destruct H as [(u & w1 & _ & H) | (e & _ & E)]; [ | discriminate ].
  apply bind_inv in H.
  destruct H as [(first & w2 & H1 & H) | (e & _ & E)]; [ | discriminate ].
  destruct cfgs as [ | c rest]; [ discriminate | ].
  inversion H1; subst first w2.
  apply evaluate_loop_shape in H. destruct H as [L F].
  exists c, rest. split; [ reflexivity | ]. split; [ exact L | ].
  eapply Forall_impl; [ | exact F ]. intros c' Hc'. cbn beta in Hc'.
  destruct (List.length (metrics c)) as [ | n] eqn:E; [ lia | ].
  specialize (Hc' n). lia.
Qed.

(** X7.  When [evaluate_configs] returns, the list of configurations was
    not empty, there is one plot per metric entry of the first
    configuration, and every configuration has at least as many entries as
    the first one. *)
Theorem evaluate_configs_shape (cfgs : list Config) (w w' : World)
    (axs : list Axes) :
  evaluate_configs cfgs w = (inr axs, w') ->
  exists first rest,
    cfgs = first :: rest /\
    List.length axs = List.length (metrics first) /\
    Forall (fun c => (List.length (metrics first) <= List.length (metrics c))%nat)
           cfgs.
Proof. apply evaluate_configs_returns. Qed.

Lemma gather_succeeds (cfgs : list Config) (i : nat) (xs ys : list float) :
  Forall (fun c => (i < List.length (metrics c))%nat) cfgs ->
  exists xy, gather cfgs i xs ys = inr xy.
Proof.
  intros H. revert xs ys.
  induction H as [ | c cfgs Hc _ IH]; intros xs ys; cbn [gather].
  - eauto.
  - unfold rbind, PyList.index.
    destruct (nth_error (metrics c) i) as [m | ] eqn:E.
    + apply IH.
    + apply nth_error_None in E. lia.
Qed.

Lemma evaluate_loop_no_index_error (cfgs : list Config) (todo : list metric)
    (i : nat) (axs : list Axes) (w : World) :
  Forall (fun c => (i + List.length todo <= List.length (metrics c))%nat) cfgs ->
  fst (evaluate_loop cfgs todo i axs w) <> inl IndexError.
Proof.
  revert i axs w. induction todo as [ | m todo IH]; intros i axs w H;
    cbn [evaluate_loop].
  - discriminate.
  - cbn [List.length] in H.
    destruct (gather_succeeds cfgs i [] []) as [xy G].
    { eapply Forall_impl; [ | exact H ]. intros c Hc. cbn beta in Hc. lia. }
    unfold bind at 1. unfold of_result. rewrite G.
    unfold bind at 1. unfold lift_env.
    match goal with |- context [scatter_plot ?c ?e] =>
      destruct (scatter_plot c e) as [[x | ax] e'] end.
    + discriminate.
    + apply IH. eapply Forall_impl; [ | exact H ].
      intros c Hc. cbn beta in Hc. lia.
Qed.

(** X8.  Called on an empty list, [evaluate_configs] raises IndexError.
    Called on a non-empty list, it raises no IndexError when every
    configuration has at least as many metric entries as the first one
    (entries beyond that number are ignored), and it cannot return when some
    configuration has fewer. *)
Theorem evaluate_configs_errors :
  (forall w : World, fst (evaluate_configs [] w) = inl IndexError) /\
  (forall (first : Config) (rest : list Config) (w : World),
      Forall (fun c => (List.length (metrics first) <= List.length (metrics c))%nat)
             rest ->
      fst (evaluate_configs (first :: rest) w) <> inl IndexError) /\
  (forall (first : Config) (rest : list Config) (w : World),
      Exists (fun c => (List.length (metrics c) < List.length (metrics first))%nat)
             rest ->
      exists e, fst (evaluate_configs (first :: rest) w) = inl e).
Proof.
  split; [ | split ].
  - intros w. reflexivity.
  - intros first rest w H. unfold evaluate_configs.
    unfold bind at 1. unfold tell.
    unfold bind at 1. cbn [of_result PyList.index nth_error].
    apply evaluate_loop_no_index_error.
    constructor; [ cbn [Nat.add]; apply Nat.le_refl | ].
    eapply Forall_impl; [ | exact H ]. intros c Hc. cbn [Nat.add]. exact Hc.
  - intros first rest w H.
    destruct (evaluate_configs (first :: rest) w) as [[e | axs] w'] eqn:E.
    + exists e. reflexivity.
    + exfalso. apply evaluate_configs_returns in E.
      destruct E as (f & r & Hc & _ & F). inversion Hc; subst f r.
      inversion F as [ | c0 l0 _ F0 ]; subst.
      rewrite Exists_exists in H. destruct H as (c & Hin & Hlt).
      rewrite Forall_forall in F0. specialize (F0 c Hin). lia.
Qed.

Lemma write_loop_no_index_error (first : Config) (rest : list Config)
    (dir : string) (axs : list Axes) (i : nat) (w : World) :
  (i + List.length axs <= List.length (metrics first))%nat ->
  fst (write_loop (first :: rest) dir axs i w) <> inl IndexError.
Proof.
  revert i w. induction axs as [ | ax axs IH]; intros i w H; cbn [write_loop].
  - discriminate.
  - cbn [List.length] in H.
    unfold bind at 1. cbn [of_result PyList.index nth_error].
    unfold bind at 1. unfold of_result, PyList.index.
    destruct (nth_error (metrics first) i) as [m | ] eqn:E.
    + unfold bind at 1. unfold lift_env.
      match goal with |- context [write_html ?a ?b ?e] =>
        destruct (write_html a b e) as [[x | u] e'] end.
      * discriminate.
      * apply IH. lia.
    + apply nth_error_None in E. lia.
Qed.

(** X9.  The loop of [simulate] that writes the plots reads
    [configs[0].metrics[i]] within bounds: the plots it receives from
    [evaluate_configs] are as many as the metric entries of the first
    configuration. *)
Theorem write_loop_in_bounds (cfgs : list Config) (w w1 w2 : World)
    (axs : list Axes) (dir : string) :
  evaluate_configs cfgs w = (inr axs, w1) ->
  fst (write_loop cfgs dir axs 0 w2) <> inl IndexError.
Proof.
  intros H. apply evaluate_configs_returns in H.
  destruct H as (first & rest & -> & L & _).
  apply write_loop_no_index_error. lia.
Qed.


(** *** The record of a loop over the datasets *)

Lemma run_event_is_quiet (ev : event) :
  is_run_event ev = true ->
  loaded ev = [] /\ updates ev = [] /\ evaluated ev = [].
Proof. destruct ev; cbn; intros H; try discriminate; auto. Qed.

Lemma flat_map_all_nil {A B : Type} (f : A -> list B) (l : list A) :
  Forall (fun a => f a = []) l -> flat_map f l = [].
Proof.
  induction 1 as [ | a l Ha _ IH]; cbn; [ reflexivity | ].
  rewrite Ha, IH. reflexivity.
Qed.

Lemma run_model_record (data : data_dict) (p : param) (w w' : World)
    (r : result (obj Learner)) :
  run_model data p w = (r, w') ->
  exists evs,
    log w' = log w ++ evs /\
    Forall (fun ev => is_run_event ev = true) evs /\
    flat_map runs_of evs = [data] /\
    flat_map trained evs = match r with inr al => [al] | inl _ => [] end.
Proof.
  intros H. pose proof (run_model_trace _ _ _ _ _ H) as T.
  destruct T as (evs & L & _ & _ & _ & _ & _ & T).
  exists evs. split; [ exact L | ].
  destruct (batch_size p (len (train data))) as [e | bs].
  - destruct T as [-> ->]. cbn. repeat split; auto.
  - destruct T as (res & T & Hr).
    inversion T; subst; cbn [flat_map runs_of trained app]; cbn beta iota in Hr;
      match type of Hr with
      | ex _ => destruct Hr as [? ->]
      | _ => rewrite Hr
      end;
      (split; [ once (repeat (constructor; try reflexivity))
              | split; reflexivity ]).
Qed.

Lemma dataset_loop_record (p : param) (ds : list dataset)
    (acc : list (obj Learner)) (w w' : World) (r : result (list (obj Learner))) :
  dataset_loop p ds acc w = (r, w') ->
  exists evs,
    log w' = log w ++ evs /\
    Forall (fun ev => is_run_event ev = true) evs /\
    match r with
    | inr als =>
        flat_map runs_of evs = map (fun d => {| train := d; dev := d |}) ds /\
        als = acc ++ flat_map trained evs /\
        List.length (flat_map trained evs) = List.length ds
    | inl _ =>
        (List.length (flat_map trained evs) < List.length ds)%nat /\
        flat_map runs_of evs
        = map (fun d => {| train := d; dev := d |})
              (firstn (S (List.length (flat_map trained evs))) ds)
    end.
Proof.
  revert acc w. induction ds as [ | d ds IH]; intros acc w; cbn [dataset_loop].
  - intros H. inversion H; subst. exists []. rewrite !app_nil_r.
    repeat split; constructor.
  - intros H. apply bind_inv in H.
    destruct H as [(al & w1 & H1 & H) | (e & H1 & ->)].
    + apply run_model_record in H1. destruct H1 as (e1 & L1 & F1 & R1 & T1).
      apply IH in H. destruct H as (e2 & L2 & F2 & H).
      exists (e1 ++ e2). rewrite L2, L1, app_assoc, !flat_map_app, R1, T1.
      split; [ reflexivity | ]. split; [ apply Forall_app; auto | ].
      destruct r as [e | als].
      * destruct H as [Hlt Hr]. cbn [app List.length]. split; [ lia | ].
        cbn [firstn map]. rewrite Hr. reflexivity.
      * destruct H as (Hr & Ha & Hl). cbn [app List.length map].
        rewrite Hr, Ha, <- app_assoc, Hl. auto.
    + apply run_model_record in H1. destruct H1 as (e1 & L1 & F1 & R1 & T1).
      exists e1. rewrite R1, T1. cbn. repeat split; auto. lia.
Qed.

(** X10.  A loop over the datasets that completes has called [run_model]
    once per dataset, in order, each time with the dataset as both 'train'
    and 'dev', and returns the learners of these runs, in order, after the
    ones it started with.  A loop that ends with an exception has completed
    the runs of the first [k] datasets and entered the run of dataset
    [k + 1] only. *)
Theorem dataset_loop_runs_in_order (p : param) (ds : list dataset)
    (acc : list (obj Learner)) (w w' : World) (r : result (list (obj Learner))) :
  dataset_loop p ds acc w = (r, w') ->
  match r with
  | inr als =>
      flat_map runs_of (emitted w w')
      = map (fun d => {| train := d; dev := d |}) ds /\
      als = acc ++ flat_map trained (emitted w w') /\
      List.length als = (List.length acc + List.length ds)%nat
  | inl _ =>
      let k := List.length (flat_map trained (emitted w w')) in
      (k < List.length ds)%nat /\
      flat_map runs_of (emitted w w')
      = map (fun d => {| train := d; dev := d |}) (firstn (S k) ds)
  end.
Proof.
  intros H. apply dataset_loop_record in H. destruct H as (evs & L & _ & H).
  rewrite (emitted_app _ _ _ L). destruct r as [e | als].
  - exact H.
  - destruct H as (Hr & Ha & Hl). repeat split; auto.
    rewrite Ha, length_app, Hl. reflexivity.
Qed.

(** X11.  The loop over a concatenation of dataset lists is the loop over
    the first list followed by the loop over the second: the learners and
    the state reached for the first datasets do not depend on the datasets
    that follow. *)
Theorem dataset_loop_app (p : param) (ds1 ds2 : list dataset)
    (acc : list (obj Learner)) (w : World) :
  dataset_loop p (ds1 ++ ds2) acc w
  = bind (dataset_loop p ds1 acc) (fun als => dataset_loop p ds2 als) w.
Proof.
  revert acc w. induction ds1 as [ | d ds1 IH]; intros acc w.
  - reflexivity.
  - cbn [app dataset_loop]. unfold bind.
    destruct (run_model {| train := d; dev := d |} p w) as [[e | al] w1].
    + reflexivity.
    + rewrite IH. unfold bind. reflexivity.
Qed.


(** *** The record of the loop over the configurations *)

Lemma load_config_inv (p : param) (s : locals) (w w' : World)
    (r : result (string * string * string * list dataset)) :
  load_config p s w = (r, w') ->
  match r with
  | inr (dir, path, json, ds) =>
      log w' = log w ++ [EvDatasets ds] /\
      dir = path_join (output_path p) (cur_output_name s) /\
      path = path_join dir (name p) /\
      json = (path ++ "/config_parameters.json")%string
  | inl _ => log w' = log w
  end.
Proof.
  unfold load_config. intros H.
  apply bind_inv in H. destruct H as [(x1 & v1 & H1 & H) | (e & H1 & ->)];
    [ | eapply ensure_dir_log; exact H1 ].
  apply ensure_dir_log in H1.
  apply bind_inv in H. destruct H as [(x2 & v2 & H2 & H) | (e & H2 & ->)];
    [ | apply ensure_dir_log in H2; congruence ].
  apply ensure_dir_log in H2.
  apply bind_inv in H. destruct H as [(x3 & v3 & H3 & H) | (e & H3 & ->)];
    [ | apply lift_env_log in H3; congruence ].
  apply lift_env_log in H3.
  apply bind_inv in H. destruct H as [(x4 & v4 & H4 & H) | (e & H4 & ->)];
    [ | apply lift_env_log in H4; congruence ].
  apply lift_env_log in H4.
  apply bind_inv in H. destruct H as [(x5 & v5 & H5 & H) | (e & H5 & ->)];
    [ | discriminate ].
  inversion H5; subst. inversion H; subst. cbn [log].
  repeat split. congruence.
Qed.

Lemma update_metrics_inv (cfg : Config) (als : list (obj Learner)) (w w' : World)
    (r : result Config) :
  update_metrics cfg als w = (r, w') ->
  log w' = log w ++ [EvUpdateMetrics cfg als] /\ r = aggregate cfg als.
Proof.
  unfold update_metrics, bind, tell, of_result. intros H. inversion H; subst.
  split; reflexivity.
Qed.

Lemma train_config_inv (p : param) (path : string) (ds : list dataset)
    (w w' : World) (r : result Config) :
  train_config p path ds w = (r, w') ->
  exists evs,
    log w' = log w ++ evs /\
    Forall (fun ev => loaded ev = [] /\ evaluated ev = []) evs /\
    match r with
    | inr c =>
        exists als,
          flat_map updates evs = [({| metrics := []; cfg_param := p |}, als)] /\
          aggregate {| metrics := []; cfg_param := p |} als = inr c /\
          List.length als = List.length ds
    | inl _ => True
    end.
Proof.
  unfold train_config. intros H.
  assert (Q : forall evs : list event,
             Forall (fun ev => is_run_event ev = true) evs ->
             Forall (fun ev => loaded ev = [] /\ evaluated ev = []) evs).
  { intros evs F. eapply Forall_impl; [ | exact F ].
    intros ev Hev. apply run_event_is_quiet in Hev. tauto. }
  apply bind_inv in H. destruct H as [(u0 & w0 & H0 & H) | (e & H0 & ->)];
    [ | discriminate ].
  assert (L0 : log w0 = log w) by (inversion H0; reflexivity).
  apply bind_inv in H. destruct H as [(als & w1 & H1 & H) | (e & H1 & ->)].
  2:{ apply dataset_loop_record in H1. destruct H1 as (e1 & L1 & F1 & _).
      exists e1. split; [ congruence | ]. split; [ apply Q; exact F1 | exact I ]. }
  apply dataset_loop_record in H1. destruct H1 as (e1 & L1 & F1 & R1 & A1 & N1).
  cbn [app] in A1.
  apply bind_inv in H. destruct H as [(ax & w2 & H2 & H) | (e & H2 & ->)].
  2:{ apply lift_env_log in H2. exists e1. split; [ congruence | ].
      split; [ apply Q; exact F1 | exact I ]. }
  apply lift_env_log in H2.
  apply bind_inv in H. destruct H as [(u3 & w3 & H3 & H) | (e & H3 & ->)].
  2:{ apply lift_env_log in H3. exists e1. split; [ congruence | ].
      split; [ apply Q; exact F1 | exact I ]. }
  apply lift_env_log in H3.
  apply bind_inv in H. destruct H as [(u4 & w4 & H4 & H) | (e & H4 & ->)].
  2:{ apply lift_env_log in H4. exists e1. split; [ congruence | ].
      split; [ apply Q; exact F1 | exact I ]. }
  apply lift_env_log in H4.
  apply bind_inv in H. destruct H as [(u5 & w5 & H5 & H) | (e & H5 & ->)];
    [ | discriminate ].
  assert (L5 : log w5 = log w4 ++ [EvConfig (name p)])
    by (inversion H5; reflexivity).
  apply update_metrics_inv in H. destruct H as [L6 ->].
  exists (e1 ++ [EvConfig (name p);
                 EvUpdateMetrics {| metrics := []; cfg_param := p |} als]).
  split.
  { rewrite L6, L5, H4, H3, H2, L1, L0, <- !app_assoc. reflexivity. }
  split.
  { apply Forall_app. split; [ apply Q; exact F1 | ].
    repeat constructor. }
  destruct (aggregate {| metrics := []; cfg_param := p |} als) as [e | c] eqn:E;
    [ exact I | ].
  exists als. rewrite flat_map_app.
  rewrite (flat_map_all_nil updates e1).
  2:{ eapply Forall_impl; [ | exact F1 ]. intros ev Hev.
      apply run_event_is_quiet in Hev. tauto. }
  split; [ reflexivity | ]. split; [ exact E | ].
  rewrite A1. exact N1.
Qed.


(** What one iteration of the loop over the configurations records and
    returns. *)
Lemma config_body_inv (p : param) (s : locals) (w w' : World) (r : result locals) :
  config_body p s w = (r, w') ->
  exists evs,
    log w' = log w ++ evs /\
    Forall (fun ev => evaluated ev = []) evs /\
    match r with
    | inr s' =>
        cur_output_directory s' = path_join (output_path p) (cur_output_name s) /\
        cur_output_name s'
        = (path_join (cur_output_directory s') (name p)
             ++ "/config_parameters.json")%string /\
        exists ds,
          flat_map loaded evs = [ds] /\
          match ds with
          | [] => flat_map updates evs = [] /\ configs s' = configs s
          | _ :: _ =>
              exists als c,
                flat_map updates evs = [({| metrics := []; cfg_param := p |}, als)] /\
                aggregate {| metrics := []; cfg_param := p |} als = inr c /\
                List.length als = List.length ds /\
                configs s' = configs s ++ [c]
          end
    | inl _ => True
    end.
Proof.
  unfold config_body. intros H.
  apply bind_inv in H. destruct H as [(loaded_ & w1 & H1 & H) | (e & H1 & ->)].
  2:{ apply load_config_inv in H1. exists []. rewrite app_nil_r.
      split; [ exact H1 | ]. split; [ constructor | exact I ]. }
  destruct loaded_ as [[[dir path] name] ds].
  apply load_config_inv in H1. destruct H1 as (L1 & -> & -> & ->).
  destruct ds as [ | d ds]; cbn [List.length Nat.eqb] in H.
  - inversion H; subst. exists [EvDatasets []].
    split; [ exact L1 | ]. split; [ repeat constructor | ].
    cbn [cur_output_directory cur_output_name configs].
    split; [ reflexivity | ]. split; [ reflexivity | ].
    exists []. cbn. auto.
  - apply bind_inv in H. destruct H as [(c & w2 & H2 & H) | (e & H2 & ->)].
    + apply train_config_inv in H2. destruct H2 as (e2 & L2 & F2 & als & U & A & N).
      inversion H; subst.
      exists (EvDatasets (d :: ds) :: e2).
      split; [ rewrite L2, L1, <- app_assoc; reflexivity | ].
      split.
      { constructor; [ reflexivity | ].
        eapply Forall_impl; [ | exact F2 ]. intros ev [Hl1 He1]; assumption. }
      cbn [cur_output_directory cur_output_name configs].
      split; [ reflexivity | ]. split; [ reflexivity | ].
      exists (d :: ds). cbn [flat_map loaded updates app].
      rewrite (flat_map_all_nil loaded e2).
      2:{ eapply Forall_impl; [ | exact F2 ]. intros ev [Hl1 He1]; assumption. }
      split; [ reflexivity | ]. exists als, c. auto.
    + apply train_config_inv in H2. destruct H2 as (e2 & L2 & F2 & _).
      exists (EvDatasets (d :: ds) :: e2).
      split; [ rewrite L2, L1, <- app_assoc; reflexivity | ].
      split; [ | exact I ].
      constructor; [ reflexivity | ].
      eapply Forall_impl; [ | exact F2 ]. intros ev [Hl1 He1]; assumption.
Qed.

(** X12.  The name under which the output of a configuration is placed is
    not the start time for every configuration: an iteration leaves the path
    of its parameter file in [output_name], and the next iteration builds
    its output directory from that path. *)
Theorem output_directory_chains (p1 p2 : param) (s s1 s2 : locals)
    (w w1 w2 : World) :
  config_body p1 s w = (inr s1, w1) ->
  config_body p2 s1 w1 = (inr s2, w2) ->
  cur_output_directory s1 = path_join (output_path p1) (cur_output_name s) /\
  cur_output_name s1
  = (path_join (cur_output_directory s1) (name p1)
       ++ "/config_parameters.json")%string /\
  cur_output_directory s2
  = path_join (output_path p2)
      (path_join (path_join (output_path p1) (cur_output_name s))
                 (name p1) ++ "/config_parameters.json")%string.
Proof.
  intros H1 H2.
  apply config_body_inv in H1. destruct H1 as (e1 & _ & _ & D1 & N1 & _).
  apply config_body_inv in H2. destruct H2 as (e2 & _ & _ & D2 & _ & _).
  split; [ exact D1 | ]. split; [ exact N1 | ].
  rewrite D2, N1, D1. reflexivity.
Qed.

(** The configurations of [ps] for which the datasets loaded are not
    empty. *)
Lemma config_loop_inv (ps : list param) (s : locals) (w w' : World)
    (r : result locals) :
  config_loop ps s w = (r, w') ->
  exists evs,
    log w' = log w ++ evs /\
    Forall (fun ev => evaluated ev = []) evs /\
    match r with
    | inr s' =>
        exists new,
          configs s' = configs s ++ new /\
          Forall2 (fun u c => metrics (fst u) = [] /\
                              aggregate (fst u) (snd u) = inr c)
                  (flat_map updates evs) new /\
          List.length (flat_map loaded evs) = List.length ps /\
          map cfg_param new
          = map fst (filter (fun pd => negb (List.length (snd pd) =? 0)%nat)
                            (combine ps (flat_map loaded evs)))
    | inl _ => True
    end.
Proof.
  revert s w. induction ps as [ | p ps IH]; intros s w; cbn [config_loop].
  - intros H. inversion H; subst. exists []. rewrite app_nil_r.
    split; [ reflexivity | ]. split; [ constructor | ].
    exists []. rewrite app_nil_r. cbn. repeat split. constructor.
  - intros H. apply bind_inv in H.
    destruct H as [(s1 & w1 & H1 & H) | (e & H1 & ->)].
    2:{ apply config_body_inv in H1. destruct H1 as (e1 & L1 & F1 & _).
        exists e1. auto. }
    apply config_body_inv in H1.
    destruct H1 as (e1 & L1 & F1 & _ & _ & ds & Hl & Hds).
    apply IH in H. destruct H as (e2 & L2 & F2 & H).
    exists (e1 ++ e2).
    split; [ rewrite L2, L1, app_assoc; reflexivity | ].
    split; [ apply Forall_app; auto | ].
    destruct r as [e | s']; [ exact I | ].
    destruct H as (new & Hc & Hu & Hn & Hp).
    rewrite !flat_map_app, Hl. cbn [app List.length combine filter].
    destruct ds as [ | d ds].
    + destruct Hds as [U1 C1]. exists new. rewrite U1. cbn [app snd List.length Nat.eqb negb].
      split; [ congruence | ]. split; [ exact Hu | ].
      split; [ rewrite Hn; reflexivity | exact Hp ].
    + destruct Hds as (als & c & U1 & A1 & _ & C1).
      exists (c :: new). rewrite U1. cbn [app snd List.length Nat.eqb negb map fst].
      split; [ rewrite Hc, C1, <- app_assoc; reflexivity | ].
      split; [ constructor; [ split; [ reflexivity | exact A1 ] | exact Hu ] | ].
      split; [ rewrite Hn; reflexivity | ].
      rewrite Hp. f_equal.
      apply aggregate_inv in A1.
      destruct A1 as (? & ? & ? & ? & ? & ? & _ & _ & _ & _ & _ & ->). reflexivity.
Qed.

(** X13.  A loop over the configurations that completes has loaded the
    datasets of every configuration once, has called [update_metrics] once,
    on a new [Config], for every configuration with at least one dataset and
    for no other, and has appended the resulting [Config]s, in the order of
    the configurations. *)
Theorem config_loop_one_config_per_loaded (ps : list param) (s s' : locals)
    (w w' : World) :
  config_loop ps s w = (inr s', w') ->
  exists new,
    configs s' = configs s ++ new /\
    Forall2 (fun u c => metrics (fst u) = [] /\ aggregate (fst u) (snd u) = inr c)
            (flat_map updates (emitted w w')) new /\
    List.length (flat_map loaded (emitted w w')) = List.length ps /\
    map cfg_param new
    = map fst (filter (fun pd => negb (List.length (snd pd) =? 0)%nat)
                      (combine ps (flat_map loaded (emitted w w')))).
Proof.
  intros H. apply config_loop_inv in H. destruct H as (evs & L & _ & H).
  rewrite (emitted_app _ _ _ L). exact H.
Qed.


(** *** The record of simulate *)

Lemma evaluate_loop_log (cfgs : list Config) (todo : list metric) (i : nat)
    (axs : list Axes) (w w' : World) (r : result (list Axes)) :
  evaluate_loop cfgs todo i axs w = (r, w') -> log w' = log w.
Proof.
  revert i axs w. induction todo as [ | m todo IH]; intros i axs w;
    cbn [evaluate_loop]; intros H.
  - inversion H; reflexivity.
  - apply bind_inv in H. destruct H as [(xy & w1 & Ha & H) | (e & Ha & ->)];
      [ | inversion Ha; reflexivity ].
    inversion Ha; subst w1.
    apply bind_inv in H. destruct H as [(ax & w2 & Hb & H) | (e & Hb & ->)];
      [ | eapply lift_env_log; exact Hb ].
    apply lift_env_log in Hb. apply IH in H. congruence.
Qed.

Lemma write_loop_log (cfgs : list Config) (dir : string) (axs : list Axes)
    (i : nat) (w w' : World) (r : result unit) :
  write_loop cfgs dir axs i w = (r, w') -> log w' = log w.
Proof.
  revert i w. induction axs as [ | ax axs IH]; intros i w; cbn [write_loop];
    intros H.
  - inversion H; reflexivity.
  - apply bind_inv in H. destruct H as [(c0 & w1 & Ha & H) | (e & Ha & ->)];
      [ | inversion Ha; reflexivity ].
    inversion Ha; subst w1.
    apply bind_inv in H. destruct H as [(m & w2 & Hb & H) | (e & Hb & ->)];
      [ | inversion Hb; reflexivity ].
    inversion Hb; subst w2.
    apply bind_inv in H. destruct H as [(u & w3 & Hc & H) | (e & Hc & ->)];
      [ | eapply lift_env_log; exact Hc ].
    apply lift_env_log in Hc. apply IH in H. congruence.
Qed.

Lemma evaluate_configs_log (cfgs : list Config) (w w' : World)
    (r : result (list Axes)) :
  evaluate_configs cfgs w = (r, w') ->
  log w' = log w ++ [EvEvaluateConfigs cfgs].
Proof.
  unfold evaluate_configs. intros H.
  apply bind_inv in H. destruct H as [(u & w1 & Ha & H) | (e & Ha & ->)];
    [ | discriminate ].
  assert (L1 : log w1 = log w ++ [EvEvaluateConfigs cfgs])
    by (inversion Ha; reflexivity).
  apply bind_inv in H. destruct H as [(c0 & w2 & Hb & H) | (e & Hb & ->)];
    [ | inversion Hb; subst; exact L1 ].
  inversion Hb; subst w2. apply evaluate_loop_log in H. congruence.
Qed.

(** X14.  In an execution of [simulate], [evaluate_configs] is called at
    most once; when it is called, this is the last call recorded, after the
    loop over the configurations has completed, and its argument is the
    non-empty list of the [Config]s that the calls of [update_metrics] have
    produced, in order. *)
Theorem evaluate_configs_called_last (w w' : World) (r : result unit) :
  simulate w = (r, w') ->
  flat_map evaluated (emitted w w') = [] \/
  exists evs cfgs,
    emitted w w' = evs ++ [EvEvaluateConfigs cfgs] /\
    flat_map evaluated evs = [] /\
    cfgs <> [] /\
    Forall2 (fun u c => metrics (fst u) = [] /\ aggregate (fst u) (snd u) = inr c)
            (flat_map updates evs) cfgs.
Proof.
  unfold simulate. intros H.
  apply bind_inv in H. destruct H as [(name & w1 & H1 & H) | (e & H1 & ->)].
  2:{ apply lift_env_log in H1. left.
      rewrite (emitted_app w w' []); [ reflexivity | rewrite app_nil_r; exact H1 ]. }
  apply lift_env_log in H1.
  apply bind_inv in H. destruct H as [(ps & w2 & H2 & H) | (e & H2 & ->)].
  2:{ apply lift_env_log in H2. left.
      rewrite (emitted_app w w' []); [ reflexivity | rewrite app_nil_r; congruence ]. }
  apply lift_env_log in H2.
  apply bind_inv in H. destruct H as [(s & w3 & H3 & H) | (e & H3 & ->)].
  2:{ apply config_loop_inv in H3. destruct H3 as (evs & L & F & _). left.
      rewrite (emitted_app w w' evs); [ | congruence ].
      apply flat_map_all_nil. exact F. }
  apply config_loop_inv in H3.
  destruct H3 as (evs & L & F & new & Hc & Hu & _ & _).
  cbn [configs app] in Hc.
  destruct (0 <? List.length (configs s))%nat eqn:E.
  - apply Nat.ltb_lt in E. right.
    apply bind_inv in H. destruct H as [(axs & w4 & H4 & H) | (e & H4 & ->)].
    + apply evaluate_configs_log in H4. apply write_loop_log in H.
      exists evs, (configs s).
      split; [ apply emitted_app; rewrite H, H4, L, H2, H1, <- app_assoc; reflexivity | ].
      split; [ apply flat_map_all_nil; exact F | ].
      split; [ intros Hnil; rewrite Hnil in E; cbn in E; lia | ].
      rewrite Hc. exact Hu.
    + apply evaluate_configs_log in H4.
      exists evs, (configs s).
      split; [ apply emitted_app; rewrite H4, L, H2, H1, <- app_assoc; reflexivity | ].
      split; [ apply flat_map_all_nil; exact F | ].
      split; [ intros Hnil; rewrite Hnil in E; cbn in E; lia | ].
      rewrite Hc. exact Hu.
  - inversion H; subst. left.
    rewrite (emitted_app w w' evs); [ | congruence ].
    apply flat_map_all_nil. exact F.
Qed.


(** *** Where the exceptions of simulate come from *)
















End MoreProofs.

(** * The further properties on the small instance *)

Module MoreExamples.
Import Toy ToyMore.

(** X1 on 100 items with [batch_proportion = 0.05]. *)
Lemma batch_size_at_least_one_witness : 1 <= 6.
Proof.
  apply (batch_size_at_least_one (config "c" 0x1.999999999999ap-5%float [] [])
           100 5%float 6).
  - vm_compute. reflexivity.
  - vm_compute. reflexivity.
  - vm_compute. reflexivity.
Defined.

(** X2 on 10 items with [batch_proportion = -0.05]: the floor is -1 and the
    batch size 1. *)
Lemma batch_size_floor_bounds_witness :
  exists f, PyNum.floor (-0.5)%float = inr f /\ f + 1 <= 1 <= f + 2.
Proof.
  apply (batch_size_floor_bounds
           (config "c" (-0x1.999999999999ap-5)%float [] []) 10 (-0.5)%float 1).
  - vm_compute. reflexivity.
  - vm_compute. reflexivity.
Defined.

(** X3 on a finite and on an infinite batch proportion. *)
Lemma batch_size_empty_dataset_witness :
  batch_size (config "c" 0x1.999999999999ap-5%float [] []) 0 = inr 1 /\
  batch_size inf_config 0 = inl ValueError.
Proof.
  split.
  - apply (proj1 (batch_size_empty_dataset
                    (config "c" 0x1.999999999999ap-5%float [] []))).
    vm_compute. reflexivity.
  - apply (proj2 (batch_size_empty_dataset inf_config)).
    vm_compute. reflexivity.
Defined.

(** X4 on a run whose batch proportion is not a number. *)
Lemma run_model_own_errors_witness :
  let w' := snd (run_model (C := toy []) (data_of 5) nan_config world0) in
  ((ValueError = ValueError \/ ValueError = OverflowError) /\
   batch_size nan_config (len (train (data_of 5))) = inl ValueError /\
   emitted world0 w' = [EvRunModel (data_of 5)]) \/
  (exists name, ValueError = Raised name).
Proof.
  cbv zeta.
  apply (run_model_own_errors (C := toy []) (data_of 5) nan_config world0).
  vm_compute. reflexivity.
Defined.

(** X5 on no run, on a run without recall history, and on two completed
    runs. *)
Lemma aggregate_failures_witness :
  aggregate (C := toy []) empty_config [] = inl ValueError /\
  aggregate (C := toy []) empty_config [untrained] = inl IndexError /\
  (exists c, aggregate (C := toy []) empty_config two_runs = inr c).
Proof.
  split; [ | split ].
  - apply (proj1 (aggregate_failures (C := toy []) empty_config [])).
    reflexivity.
  - apply (proj1 (proj2 (aggregate_failures (C := toy []) empty_config [untrained]))).
    constructor. left. reflexivity.
  - apply (proj2 (proj2 (proj2 (aggregate_failures (C := toy []) empty_config
                                  two_runs)))).
    + discriminate.
    + repeat constructor; discriminate.
Defined.

(** X6 on two configurations, for the entry 'mean metrics'. *)
Lemma gather_collects_in_order_witness :
  exists ms,
    Forall2 (fun c m => nth_error (metrics c) 1 = Some m)
            (one_config ++ one_config) ms /\
    [0.125; 0.125]%float = map (fun m => snd (m_x m)) ms /\
    [0.875; 0.875]%float = map (fun m => snd (m_y m)) ms /\
    List.length [0.125; 0.125]%float = List.length (one_config ++ one_config) /\
    List.length [0.875; 0.875]%float = List.length (one_config ++ one_config).
Proof.
  apply (gather_collects_in_order (one_config ++ one_config) 1).
  vm_compute. reflexivity.
Defined.

(** X7 on a list of one [Config] with two entries. *)
Lemma evaluate_configs_shape_witness :
  exists first rest,
    one_config = first :: rest /\
    List.length [tt; tt] = List.length (metrics first) /\
    Forall (fun c => (List.length (metrics first) <= List.length (metrics c))%nat)
           one_config.
Proof.
  apply (evaluate_configs_shape (C := toy []) one_config world0
           (snd (evaluate_configs (C := toy []) one_config world0)) [tt; tt]).
  vm_compute. reflexivity.
Defined.

(** X8 on the empty list, on one [Config], and on a list whose second
    [Config] has no entries. *)
Lemma evaluate_configs_errors_witness :
  fst (evaluate_configs (C := toy []) [] world0) = inl IndexError /\
  fst (evaluate_configs (C := toy []) one_config world0) <> inl IndexError /\
  (exists e, fst (evaluate_configs (C := toy []) (one_config ++ [empty_config])
                    world0) = inl e).
Proof.
  split; [ | split ].
  - apply (proj1 (evaluate_configs_errors (C := toy []))).
  - apply (proj1 (proj2 (evaluate_configs_errors (C := toy [])))).
    constructor.
  - apply (proj2 (proj2 (evaluate_configs_errors (C := toy [])))).
    constructor. cbn. lia.
Defined.

(** X9 on the plots of one [Config]. *)
Lemma write_loop_in_bounds_witness :
  fst (write_loop (C := toy []) one_config "out" [tt; tt] 0 world0)
  <> inl IndexError.
Proof.
  apply (write_loop_in_bounds (C := toy []) one_config world0
           (snd (evaluate_configs (C := toy []) one_config world0))).
  vm_compute. reflexivity.
Defined.

(** X10 on the three datasets of which the second cannot be trained on. *)
Lemma dataset_loop_runs_in_order_witness :
  let p := config "a" 0x1.999999999999ap-5%float [5; 1; 4]%nat [] in
  let w' := snd (dataset_loop (C := toy []) p (load [5; 1; 4]%nat) [] world0) in
  let k := List.length (flat_map trained (emitted world0 w')) in
  (k < List.length (load [5; 1; 4]%nat))%nat /\
  flat_map runs_of (emitted world0 w')
  = map (fun d => {| train := d; dev := d |}) (firstn (S k) (load [5; 1; 4]%nat)).
Proof.
  cbv zeta.
  apply (dataset_loop_runs_in_order (C := toy [])
           (config "a" 0x1.999999999999ap-5%float [5; 1; 4]%nat [])
           (load [5; 1; 4]%nat) [] world0 _ (inl (Raised "TrainingError"))).
  vm_compute. reflexivity.
Defined.

(** X12 on the first two of the three configurations. *)
Lemma output_directory_chains_witness :
  let a := config "a" 0x1.999999999999ap-5%float [5; 4]%nat [] in
  let b := config "b" 0x1.999999999999ap-5%float []%nat [] in
  let first := config_body (C := toy three_configs) a start world0 in
  let s1 := value start (fst first) in
  let s2 := value start (fst (config_body (C := toy three_configs) b s1 (snd first))) in
  cur_output_directory s1 = "out/2024-01-01 00:00:00" /\
  cur_output_name s1 = "out/2024-01-01 00:00:00/a/config_parameters.json" /\
  cur_output_directory s2
  = "out/out/2024-01-01 00:00:00/a/config_parameters.json".
Proof.
  cbv zeta.
  pose (a := config "a" 0x1.999999999999ap-5%float [5; 4]%nat []).
  pose (b := config "b" 0x1.999999999999ap-5%float []%nat []).
  pose (first := config_body (C := toy three_configs) a start world0).
  pose (s1 := value start (fst first)).
  pose (second := config_body (C := toy three_configs) b s1 (snd first)).
  assert (H1 : first = (inr s1, snd first)) by (vm_compute; reflexivity).
  assert (H2 : second = (inr (value start (fst second)), snd second))
    by (vm_compute; reflexivity).
  exact (output_directory_chains (C := toy three_configs) a b start s1
           (value start (fst second)) world0 (snd first) (snd second) H1 H2).
Defined.

(** X13 on the three configurations, of which the second has no
    dataset. *)
Lemma config_loop_one_config_per_loaded_witness :
  let run := config_loop (C := toy three_configs) three_configs start world0 in
  let s' := value start (fst run) in
  let evs := emitted world0 (snd run) in
  exists new,
    configs s' = configs start ++ new /\
    Forall2 (fun u c => metrics (fst u) = [] /\
                        aggregate (C := toy three_configs) (fst u) (snd u) = inr c)
            (flat_map updates evs) new /\
    List.length (flat_map loaded evs) = List.length three_configs /\
    map cfg_param new
    = map fst (filter (fun pd => negb (List.length (snd pd) =? 0)%nat)
                      (combine three_configs (flat_map loaded evs))).
Proof.
  cbv zeta.
  apply (config_loop_one_config_per_loaded (C := toy three_configs)
           three_configs start).
  vm_compute. reflexivity.
Defined.

(** X14 on the simulation of the three configurations. *)
Lemma evaluate_configs_called_last_witness :
  let evs0 := emitted world0 (snd (simulate (C := toy three_configs) world0)) in
  flat_map evaluated evs0 = [] \/
  exists evs cfgs,
    evs0 = evs ++ [EvEvaluateConfigs cfgs] /\
    flat_map evaluated evs = [] /\
    cfgs <> [] /\
    Forall2 (fun u c => metrics (fst u) = [] /\
                        aggregate (C := toy three_configs) (fst u) (snd u) = inr c)
            (flat_map updates evs) cfgs.
Proof.
  cbv zeta.
  apply (evaluate_configs_called_last (C := toy three_configs) world0 _
           (fst (simulate (C := toy three_configs) world0))).
  apply surjective_pairing.
Defined.


End MoreExamples.
